(** * Market sampling dummy-data generator: a shallow embedding

    The program under study is [src/generate_dummy_data.py].  It builds five
    tables (areas, promoters, sampling types, sampling events, respondents)
    from static lookup data and three sources of pseudo-randomness:

    - Python's module-level [random] generator ([random.randint],
      [random.choice]), seeded by [random.seed];
    - NumPy's global generator, used by pandas' [DataFrame.sample], seeded by
      [np.random.seed];
    - the generator owned by the [Faker] object ([fake.name],
      [fake.phone_number], [fake.date_between]), which the script never seeds.

    The generators are third-party code.  They are modelled by their
    interfaces: a generator is any state type with a draw "below n" that
    returns an index in [0, n).  The Python wrappers ([randint], [choice],
    [sample]) are written out on top of that draw, with the exceptions they
    raise.  Tables are lists of records, dates are day ordinals in [Z]. *)

From stdpp Require Import base numbers list strings pretty.

Open Scope string_scope.
Open Scope list_scope.
Open Scope Z_scope.

(** ** Exceptions and results *)

Inductive exn : Type :=
  | ValueError
  | IndexError.

Inductive result (A : Type) : Type :=
  | Ok (a : A)
  | Raise (e : exn).
Arguments Ok {A} a.
Arguments Raise {A} e.

(** ** Interfaces of the third-party generators *)

(** [randbelow n g] is CPython's [Random._randbelow(n)] (and the index draw of
    NumPy's [RandomState.choice]): for [0 < n] it returns some [k] with
    [0 <= k < n] and the advanced generator.  [seed_rng] is [seed(a)]. *)
Class RandomGen (G : Type) : Type := {
  seed_rng : Z → G;
  randbelow : Z → G → Z * G;
  randbelow_range : ∀ n g, 0 < n → 0 ≤ (randbelow n g).1 < n
}.

(** The fake-identity source.  Its state holds the generator private to the
    [Faker] object and the system clock read by [date_between]. *)
Class FakerGen (F : Type) : Type := {
  faker_name : F → string * F;
  faker_phone_number : F → string * F;
  faker_date_between : string → string → F → Z * F
}.

(** ** Rows of the five tables *)

Module Area.
Record t : Type := mk {
  areaID : string;
  AreaName : string;
  region : string;
  district : string
}.
End Area.

Module Promoter.
Record t : Type := mk {
  promoterID : string;
  name : string;
  contact : string
}.
End Promoter.

(** The sampling-type frame has one column and a string index. *)
Module SamplingTypeDF.
Record t : Type := mk {
  index : list string;
  SamplingType : list string
}.
End SamplingTypeDF.

Module SamplingFact.
Record t : Type := mk {
  samplingID : string;
  areaID : string;
  promoterID : string;
  samplingType : string;
  institutionType : option string;
  target : Z;
  passengers : option Z;
  toothpasteBrand : string;
  startDate : Z;
  endDate : Z
}.
End SamplingFact.

Module Respondent.
Record t : Type := mk {
  respondentID : string;
  samplingID : string;
  fullName : string;
  ageRange : string;
  contact : string;
  toothpasteBrand : string;
  perferredBrand : string;
  areaID : string;
  residenceArea : string;
  reason : string;
  optInOtherProducts : string;
  dateOfSubmistion : Z
}.
End Respondent.

(** ** Lookup data *)

Record Lookup : Type := {
  sampling_types : list string;
  institution_types : list string;
  regions_districts : list (string * list string);
  age_ranges : list string;
  toothpaste_brands : list string;
  reasons : list string
}.

Definition define_lookup_data : Lookup := {|
  sampling_types := ["Open Market"; "Traffic"; "Trade"; "Third Space"; "Institutional"];
  institution_types := ["Church"; "Mosque"];
  regions_districts :=
    [ ("Greater Accra", ["La Nkwantanang"; "Ablekuma"; "Madina"; "Adenta"]);
      ("Ashanti", ["Kumasi Metro"; "Ejisu"; "Obuasi"]);
      ("Central", ["Cape Coast"; "Kasoa"; "Mankessim"]) ];
  age_ranges := ["18–24"; "25–34"; "35–44"; "45–54"; "55+"];
  toothpaste_brands := ["Pepsodent"; "Kel"; "Colgate"; "Close-Up"; "Oral-B"; "Sensodyne"];
  reasons :=
    [ "Curious about the brand";
      "Referred by friend";
      "Free product sample";
      "Interested in survey";
      "Enjoy trying new products";
      "Promoter was convincing";
      "Happened to be available" ]
|}.

(** ** The area generator (no randomness) *)

(** [range(n)] *)
Definition range (n : Z) : list Z := seqZ 0 n.

(** One pass of the innermost loop body: append a record, bump the counter.
    The loop-carried variables are [area_records] and [area_id]. *)
Definition area_append (region district : string)
    (acc : list Area.t * Z) (i : Z) : list Area.t * Z :=
  let '(area_records, area_id) := acc in
  (area_records ++
     [ {| Area.areaID := "A " +:+ pretty area_id;
          Area.AreaName := district +:+ " Area " +:+ pretty (i + 1);
          Area.region := region;
          Area.district := district |} ],
   area_id + 1).

Definition generate_area_data
    (regions_districts : list (string * list string)) (start_id : Z) : list Area.t :=
  fst
    (fold_left
       (λ acc (item : string * list string),
          let '(region, districts) := item in
          fold_left
            (λ acc district, fold_left (area_append region district) (range 2) acc)
            districts acc)
       regions_districts ([], start_id)).

(** The spec's reading of the area table: the districts in mapping iteration
    order, two rows each, numbered from [start_id]. *)
Definition districts_of (regions_districts : list (string * list string))
    : list (string * string) :=
  flat_map (λ item : string * list string, (λ d, (item.1, d)) <$> item.2)
           regions_districts.

Definition area_row (n : Z) (region district : string) (k : Z) : Area.t :=
  {| Area.areaID := "A " +:+ pretty n;
     Area.AreaName := district +:+ " Area " +:+ pretty k;
     Area.region := region;
     Area.district := district |}.

(** The area table as the specification words it: district number [k] (from
    0, in iteration order) owns the rows with identifiers [start_id + 2k] and
    [start_id + 2k + 1], named "Area 1" and "Area 2". *)
Definition area_table_spec (regions_districts : list (string * list string))
    (start_id : Z) : list Area.t :=
  concat
    (imap (λ (k : nat) (rd : string * string),
             [ area_row (start_id + 2 * Z.of_nat k) rd.1 rd.2 1;
               area_row (start_id + 2 * Z.of_nat k + 1) rd.1 rd.2 2 ])
          (districts_of regions_districts)).

(** The same rows by recursion on the districts, with a running counter. *)
Fixpoint area_rows (ds : list (string * string)) (n : Z) : list Area.t :=
  match ds with
  | [] => []
  | (region, district) :: ds' =>
      area_row n region district 1 :: area_row (n + 1) region district 2
        :: area_rows ds' (n + 2)
  end.

(** ** The process state and the monad of the generators

    The three generators are global, mutable objects of the Python process.
    A computation takes the state of all three and either returns a value
    with the new state or raises. *)

Record World (G N F : Type) : Type := mkWorld {
  py_random : G;   (* the generator behind the [random] module *)
  np_random : N;   (* NumPy's global [RandomState] *)
  faker : F        (* the generator and clock behind the [Faker] object *)
}.
Arguments mkWorld {G N F} _ _ _.
Arguments py_random {G N F} _.
Arguments np_random {G N F} _.
Arguments faker {G N F} _.

Definition M (G N F A : Type) : Type := World G N F → result (A * World G N F).

Definition ret {G N F A} (a : A) : M G N F A := λ w, Ok (a, w).

Definition bind {G N F A B} (m : M G N F A) (k : A → M G N F B) : M G N F B :=
  λ w, match m w with
       | Ok (a, w') => k a w'
       | Raise e => Raise e
       end.

Notation "x <- c1 ;; c2" := (bind c1 (λ x, c2))
  (at level 100, c1 at next level, right associativity).

(** [for x in xs: body], with the variables the body assigns carried in [s]. *)
Fixpoint for_each {G N F A S} (xs : list A) (body : A → S → M G N F S) (s : S)
    : M G N F S :=
  match xs with
  | [] => ret s
  | x :: xs' => s' <- body x s ;; for_each xs' body s'
  end.

Section Generators.
Context {G N F : Type} `{!RandomGen G, !RandomGen N, !FakerGen F}.

Local Abbreviation Gen := (M G N F).

(** *** Python's [random] module *)

(** [random.randint(a, b)] is [randrange(a, b + 1)]: with
    [width = b + 1 - a], it returns [a + _randbelow(width)] when
    [width > 0] and raises [ValueError] otherwise.  Both ends are included. *)
Definition randint (a b : Z) : Gen Z := λ w,
  let width := b + 1 - a in
  if decide (0 < width) then
    let '(k, g) := randbelow width (py_random w) in
    Ok (a + k, mkWorld g (np_random w) (faker w))
  else Raise ValueError.

(** [random.choice(seq)]: [IndexError] on an empty sequence, else
    [seq[_randbelow(len(seq))]]. *)
Definition choice {A} (seq : list A) : Gen A := λ w,
  if decide (length seq = 0%nat) then Raise IndexError
  else
    let '(k, g) := randbelow (Z.of_nat (length seq)) (py_random w) in
    match seq !! Z.to_nat k with
    | Some x => Ok (x, mkWorld g (np_random w) (faker w))
    | None => Raise IndexError
    end.

(** *** pandas *)

(** [df.sample(1).iloc[0]] (and [series.sample(1).values[0]]): one row drawn
    with NumPy's global generator; sampling from an empty frame raises
    [ValueError]. *)
Definition sample1 {A} (df : list A) : Gen A := λ w,
  if decide (length df = 0%nat) then Raise ValueError
  else
    let '(k, g) := randbelow (Z.of_nat (length df)) (np_random w) in
    match df !! Z.to_nat k with
    | Some x => Ok (x, mkWorld (py_random w) g (faker w))
    | None => Raise IndexError
    end.

(** [pd.date_range(start, end)]: every day from [start] to [end], both
    included; empty when [end < start]. *)
Definition date_range (start_date end_date : Z) : list Z :=
  seqZ start_date (end_date - start_date + 1).

(** *** Faker *)

Definition fake_name : Gen string := λ w,
  let '(s, f) := faker_name (faker w) in
  Ok (s, mkWorld (py_random w) (np_random w) f).

Definition fake_phone_number : Gen string := λ w,
  let '(s, f) := faker_phone_number (faker w) in
  Ok (s, mkWorld (py_random w) (np_random w) f).

Definition fake_date_between (start_date end_date : string) : Gen Z := λ w,
  let '(d, f) := faker_date_between start_date end_date (faker w) in
  Ok (d, mkWorld (py_random w) (np_random w) f).

(** *** The generators of the script *)

(** [fake = Faker(); random.seed(seed); np.random.seed(seed)].  The two
    module-level generators are re-seeded; the generator inside the [Faker]
    object is left as the process created it. *)
Definition initialize_faker (seed : Z) : Gen unit := λ w,
  Ok ((), mkWorld (seed_rng seed) (seed_rng seed) (faker w)).

Definition generate_promoter_data (num_promoters start_id : Z)
    : Gen (list Promoter.t) :=
  for_each (range num_promoters)
    (λ i promoters,
       name <- fake_name ;;
       contact <- fake_phone_number ;;
       ret (promoters ++
              [ {| Promoter.promoterID := "P" +:+ pretty (start_id + i);
                   Promoter.name := name;
                   Promoter.contact := contact |} ]))
    [].

Definition generate_sampling_facts
    (area_df : list Area.t) (promoter_df : list Promoter.t)
    (sampling_type_df : SamplingTypeDF.t)
    (institution_types toothpaste_brands : list string)
    (num_samples start_id : Z) : Gen (list SamplingFact.t) :=
  for_each (range num_samples)
    (λ i sampling_facts,
       area <- sample1 area_df ;;
       promoter <- sample1 promoter_df ;;
       sampling_type <- choice (SamplingTypeDF.index sampling_type_df) ;;
       institution_type <-
         (if decide (sampling_type = "ST5")
          then x <- choice institution_types ;; ret (Some x)
          else ret None) ;;
       target <- randint 100 200 ;;
       passengers <-
         (if decide (sampling_type = "ST2")
          then n <- randint 5 10 ;; ret (Some n)
          else ret None) ;;
       start_date <- fake_date_between "-1y" "today" ;;
       let end_date := start_date + 30 in
       toothpaste_brand <- choice toothpaste_brands ;;
       ret (sampling_facts ++
              [ {| SamplingFact.samplingID := "S" +:+ pretty (start_id + i);
                   SamplingFact.areaID := Area.areaID area;
                   SamplingFact.promoterID := Promoter.promoterID promoter;
                   SamplingFact.samplingType := sampling_type;
                   SamplingFact.institutionType := institution_type;
                   SamplingFact.target := target;
                   SamplingFact.passengers := passengers;
                   SamplingFact.toothpasteBrand := toothpaste_brand;
                   SamplingFact.startDate := start_date;
                   SamplingFact.endDate := end_date |} ]))
    [].

(** The dictionary literal of the inner loop; its values are evaluated in
    the order they are written. *)
Definition respondent_record (sampling : SamplingFact.t) (area_df : list Area.t)
    (age_ranges toothpaste_brands reasons : list string) (respondent_id : Z)
    : Gen Respondent.t :=
  full_name <- fake_name ;;
  age_range <- choice age_ranges ;;
  contact <- fake_phone_number ;;
  preferred <- choice toothpaste_brands ;;
  residence <- sample1 (Area.AreaName <$> area_df) ;;
  reason <- choice reasons ;;
  opt_in <- choice ["Yes"; "No"] ;;
  submitted <-
    choice (date_range (SamplingFact.startDate sampling)
                       (SamplingFact.endDate sampling)) ;;
  ret {| Respondent.respondentID := "R" +:+ pretty respondent_id;
         Respondent.samplingID := SamplingFact.samplingID sampling;
         Respondent.fullName := full_name;
         Respondent.ageRange := age_range;
         Respondent.contact := contact;
         Respondent.toothpasteBrand := SamplingFact.toothpasteBrand sampling;
         Respondent.perferredBrand := preferred;
         Respondent.areaID := SamplingFact.areaID sampling;
         Respondent.residenceArea := residence;
         Respondent.reason := reason;
         Respondent.optInOtherProducts := opt_in;
         Respondent.dateOfSubmistion := submitted |}.

(** The body of [for _ in range(actual)]. *)
Definition respondent_append (sampling : SamplingFact.t) (area_df : list Area.t)
    (age_ranges toothpaste_brands reasons : list string)
    (_ : Z) (acc : list Respondent.t * Z) : Gen (list Respondent.t * Z) :=
  let '(respondents, respondent_id) := acc in
  r <- respondent_record sampling area_df age_ranges toothpaste_brands reasons
         respondent_id ;;
  ret (respondents ++ [r], respondent_id + 1).

(** The body of [for _, sampling in sampling_fact_df.iterrows()]. *)
Definition respondent_batch (area_df : list Area.t)
    (age_ranges toothpaste_brands reasons : list string)
    (sampling : SamplingFact.t) (acc : list Respondent.t * Z)
    : Gen (list Respondent.t * Z) :=
  actual <- randint 100 (SamplingFact.target sampling) ;;
  for_each (range actual)
    (respondent_append sampling area_df age_ranges toothpaste_brands reasons)
    acc.

Definition generate_respondents
    (sampling_fact_df : list SamplingFact.t) (area_df : list Area.t)
    (age_ranges toothpaste_brands reasons : list string) (start_id : Z)
    : Gen (list Respondent.t) :=
  acc <- for_each sampling_fact_df
           (respondent_batch area_df age_ranges toothpaste_brands reasons)
           ([], start_id) ;;
  ret acc.1.
End Generators.

Definition generate_sampling_type_df (sampling_types : list string)
    : SamplingTypeDF.t :=
  {| SamplingTypeDF.index :=
       (λ i, "ST" +:+ pretty i) <$> seqZ 1 (Z.of_nat (length sampling_types));
     SamplingTypeDF.SamplingType := sampling_types |}.

(** The five sheets handed to the export sink. *)
Record Workbook : Type := {
  sheet_Area : list Area.t;
  sheet_Promoter : list Promoter.t;
  sheet_SamplingFact : list SamplingFact.t;
  sheet_Respondents : list Respondent.t;
  sheet_SamplingType : SamplingTypeDF.t
}.

(** [export_to_excel] writes its five arguments to five sheets; the written
    content is the model's output.  Only the run in which the write succeeds
    is modelled: the [OSError] of [pd.ExcelWriter] on a missing directory or
    an unwritable path has no counterpart here, so a result of [main] below
    always stands for "the generators ran to the end and the file was
    written". *)
Definition export_to_excel (area_df : list Area.t) (promoter_df : list Promoter.t)
    (sampling_fact_df : list SamplingFact.t) (respondents_df : list Respondent.t)
    (sampling_type_df : SamplingTypeDF.t) : Workbook :=
  {| sheet_Area := area_df;
     sheet_Promoter := promoter_df;
     sheet_SamplingFact := sampling_fact_df;
     sheet_Respondents := respondents_df;
     sheet_SamplingType := sampling_type_df |}.

Section Main.
Context {G N F : Type} `{!RandomGen G, !RandomGen N, !FakerGen F}.

Definition main : M G N F Workbook :=
  _ <- initialize_faker 42 ;;
  let lookup_data := define_lookup_data in
  let area_df := generate_area_data (regions_districts lookup_data) 1001 in
  promoter_df <- generate_promoter_data 5 1000 ;;
  let sampling_type_df := generate_sampling_type_df (sampling_types lookup_data) in
  sampling_fact_df <-
    generate_sampling_facts area_df promoter_df sampling_type_df
      (institution_types lookup_data) (toothpaste_brands lookup_data) 6 1000 ;;
  respondents_df <-
    generate_respondents sampling_fact_df area_df
      (age_ranges lookup_data) (toothpaste_brands lookup_data)
      (reasons lookup_data) 1000 ;;
  ret (export_to_excel area_df promoter_df sampling_fact_df respondents_df
         sampling_type_df).
End Main.

(** ** Executable stand-ins for the third-party generators

    Any implementation of the interfaces runs the model.  The ones below are
    small and transparent, so that runs of the generators can be evaluated:
    a generator that first replays a script of raw draws and then continues
    with a linear congruential sequence, and a fake-identity source driven by
    a counter and a clock. *)

Module Demo.

Record tape : Type := mkTape { script : list Z; lcg : Z }.

Definition next_raw (t : tape) : Z :=
  match script t with
  | x :: _ => x
  | [] => lcg t
  end.

Definition advance (t : tape) : tape :=
  match script t with
  | _ :: s => mkTape s (lcg t)
  | [] => mkTape [] ((1103515245 * lcg t + 12345) `mod` 2147483648)
  end.

Definition tape_below (n : Z) (t : tape) : Z * tape :=
  (next_raw t `mod` n, advance t).

#[global] Instance tape_gen : RandomGen tape := {|
  seed_rng := λ s, mkTape [] s;
  randbelow := tape_below;
  randbelow_range := λ n t Hn, Z.mod_pos_bound (next_raw t) n Hn
|}.

Record fake_state : Type := mkFake { entropy : Z; today : Z }.

Definition fake_step (f : fake_state) : fake_state :=
  mkFake ((entropy f * 6364136223846793005 + 1442695040888963407) `mod` 2 ^ 64)
         (today f).

#[global] Instance fake_gen : FakerGen fake_state := {|
  faker_name := λ f, ("Person " +:+ pretty (entropy f `mod` 1000), fake_step f);
  faker_phone_number :=
    λ f, ("+233 " +:+ pretty (entropy f `mod` 1000000000), fake_step f);
  faker_date_between :=
    λ _ _ f, (today f - 365 + entropy f `mod` 366, fake_step f)
|}.

Definition world (py np : list Z) (entropy today : Z)
    : World tape tape fake_state :=
  mkWorld (mkTape py 0) (mkTape np 0) (mkFake entropy today).

(** A small configuration: two areas, one promoter, the five sampling types. *)
Definition areas : list Area.t := generate_area_data [("Central", ["Kasoa"])] 1001.
Definition promoters : list Promoter.t :=
  [ {| Promoter.promoterID := "P1000";
       Promoter.name := "Ama Mensah";
       Promoter.contact := "+233 200000000" |} ].
Definition types : SamplingTypeDF.t :=
  generate_sampling_type_df (sampling_types define_lookup_data).

Definition brands : list string := ["Kel"; "Colgate"].
Definition institutions : list string := ["Church"; "Mosque"].

End Demo.

(** ** Concrete runs *)

Module Run.
Import Demo.

(** Two events with scripted draws.  The first: sampling type index 4
    ("ST5"), institution index 1, raw target draw 100, brand index 0.  The
    second: sampling type index 1 ("ST2"), raw target draw 0, raw passenger
    draw 5, brand index 0.  NumPy draws: area 0 and promoter 0, then area 1
    and promoter 0. *)
Definition events_world : World tape tape fake_state :=
  world [4; 1; 100; 0; 1; 0; 5; 0] [0; 0; 1; 0] 7 739000.

Definition events : list SamplingFact.t :=
  Eval vm_compute in
    match generate_sampling_facts areas promoters types institutions brands
            2 1000 events_world
    with Ok (facts, _) => facts | Raise _ => [] end.

Definition events_world' : World tape tape fake_state :=
  Eval vm_compute in
    match generate_sampling_facts areas promoters types institutions brands
            2 1000 events_world
    with Ok (_, w) => w | Raise _ => events_world end.

(** The respondents of those two events. *)
Definition respondents : list Respondent.t :=
  Eval vm_compute in
    match generate_respondents events areas (age_ranges define_lookup_data)
            brands (reasons define_lookup_data) 1000 events_world'
    with Ok (rs, _) => rs | Raise _ => [] end.

Definition respondents_world' : World tape tape fake_state :=
  Eval vm_compute in
    match generate_respondents events areas (age_ranges define_lookup_data)
            brands (reasons define_lookup_data) 1000 events_world'
    with Ok (_, w) => w | Raise _ => events_world' end.

(** Two processes that run [main]: the same script, the same clock, and a
    [Faker] generator that starts from different entropy.  The module-level
    generators hold whatever they held before [main] seeds them. *)
Definition process_a : World tape tape fake_state := world [] [] 7 739000.
Definition process_b : World tape tape fake_state := world [] [] 8 739000.

Definition workbook_a : Workbook :=
  Eval vm_compute in
    match main process_a with
    | Ok (wb, _) => wb
    | Raise _ => export_to_excel [] [] [] [] (generate_sampling_type_df [])
    end.

Definition process_a' : World tape tape fake_state :=
  Eval vm_compute in
    match main process_a with Ok (_, w) => w | Raise _ => process_a end.

End Run.

(** Further inputs and runs: three promoters, an event whose target is below
    100, a second process for [main], and a second starting state for the
    scripted events that differs in the [Faker] object only. *)
Module Cases.
Import Demo.

Definition promoters_world : World tape tape fake_state := world [] [] 7 739000.

Definition three_promoters : list Promoter.t :=
  Eval vm_compute in
    match generate_promoter_data 3 1000 promoters_world
    with Ok (ps, _) => ps | Raise _ => [] end.

Definition promoters_world' : World tape tape fake_state :=
  Eval vm_compute in
    match generate_promoter_data 3 1000 promoters_world
    with Ok (_, w) => w | Raise _ => promoters_world end.

Definition low_target_event : SamplingFact.t :=
  {| SamplingFact.samplingID := "S1000";
     SamplingFact.areaID := "A 1001";
     SamplingFact.promoterID := "P1000";
     SamplingFact.samplingType := "ST1";
     SamplingFact.institutionType := None;
     SamplingFact.target := 50;
     SamplingFact.passengers := None;
     SamplingFact.toothpasteBrand := "Kel";
     SamplingFact.startDate := 738000;
     SamplingFact.endDate := 738030 |}.

(** An event with a target of at least 100, placed before the one above. *)
Definition ample_target_event : SamplingFact.t :=
  {| SamplingFact.samplingID := "S0999";
     SamplingFact.areaID := "A 1002";
     SamplingFact.promoterID := "P1000";
     SamplingFact.samplingType := "ST1";
     SamplingFact.institutionType := None;
     SamplingFact.target := 150;
     SamplingFact.passengers := None;
     SamplingFact.toothpasteBrand := "Colgate";
     SamplingFact.startDate := 738100;
     SamplingFact.endDate := 738130 |}.

Definition workbook_b : Workbook :=
  Eval vm_compute in
    match main Run.process_b with
    | Ok (wb, _) => wb
    | Raise _ => export_to_excel [] [] [] [] (generate_sampling_type_df [])
    end.

Definition process_b' : World tape tape fake_state :=
  Eval vm_compute in
    match main Run.process_b with Ok (_, w) => w | Raise _ => Run.process_b end.

Definition events_world_b : World tape tape fake_state :=
  world [4; 1; 100; 0; 1; 0; 5; 0] [0; 0; 1; 0] 8 739000.

Definition respondents_world_b : World tape tape fake_state :=
  world [] [] 8 739000.

End Cases.

(** ** Row predicates

    What one pass of each generator loop establishes for the row it appends,
    relative to the tables the row was drawn from. *)

Definition event_ok (area_df : list Area.t) (promoter_df : list Promoter.t)
    (sampling_type_df : SamplingTypeDF.t)
    (institution_types toothpaste_brands : list string)
    (e : SamplingFact.t) : Prop :=
  SamplingFact.areaID e ∈ Area.areaID <$> area_df ∧
  SamplingFact.promoterID e ∈ Promoter.promoterID <$> promoter_df ∧
  SamplingFact.samplingType e ∈ SamplingTypeDF.index sampling_type_df ∧
  (if decide (SamplingFact.samplingType e = "ST5")
   then ∃ x, x ∈ institution_types ∧ SamplingFact.institutionType e = Some x
   else SamplingFact.institutionType e = None) ∧
  100 ≤ SamplingFact.target e ≤ 200 ∧
  (if decide (SamplingFact.samplingType e = "ST2")
   then ∃ n, 5 ≤ n ≤ 10 ∧ SamplingFact.passengers e = Some n
   else SamplingFact.passengers e = None) ∧
  SamplingFact.endDate e = SamplingFact.startDate e + 30 ∧
  SamplingFact.toothpasteBrand e ∈ toothpaste_brands.

Definition respondent_ok (area_df : list Area.t) (sampling : SamplingFact.t)
    (r : Respondent.t) : Prop :=
  Respondent.samplingID r = SamplingFact.samplingID sampling ∧
  Respondent.areaID r = SamplingFact.areaID sampling ∧
  Respondent.toothpasteBrand r = SamplingFact.toothpasteBrand sampling ∧
  Respondent.residenceArea r ∈ Area.AreaName <$> area_df ∧
  SamplingFact.startDate sampling ≤ Respondent.dateOfSubmistion r
    ≤ SamplingFact.endDate sampling.

(** The respondents generated for one sampling event. *)
Definition batch_ok (area_df : list Area.t) (sampling : SamplingFact.t)
    (batch : list Respondent.t) : Prop :=
  100 ≤ Z.of_nat (length batch) ≤ SamplingFact.target sampling ∧
  Forall (respondent_ok area_df sampling) batch.

(** The fields of a respondent that are copied from its event or drawn from
    the option lists. *)
Definition respondent_fields_ok (area_df : list Area.t)
    (age_ranges toothpaste_brands reasons : list string)
    (sampling : SamplingFact.t) (r : Respondent.t) : Prop :=
  Respondent.samplingID r = SamplingFact.samplingID sampling ∧
  Respondent.toothpasteBrand r = SamplingFact.toothpasteBrand sampling ∧
  Respondent.areaID r = SamplingFact.areaID sampling ∧
  Respondent.ageRange r ∈ age_ranges ∧
  Respondent.perferredBrand r ∈ toothpaste_brands ∧
  Respondent.residenceArea r ∈ Area.AreaName <$> area_df ∧
  Respondent.reason r ∈ reasons ∧
  Respondent.optInOtherProducts r ∈ ["Yes"; "No"].

(** What both loops of [generate_respondents] keep true of the rows built so
    far and of the identifier counter, [seen] being the events visited. *)
Definition respondent_table_ok (area_df : list Area.t)
    (age_ranges toothpaste_brands reasons : list string)
    (start_id : Z) (seen : list SamplingFact.t)
    (acc : list Respondent.t * Z) : Prop :=
  acc.2 = start_id + Z.of_nat (length acc.1) ∧
  Respondent.respondentID <$> acc.1
    = (λ i, "R" +:+ pretty i) <$> seqZ start_id (Z.of_nat (length acc.1)) ∧
  Forall (λ r, ∃ e, e ∈ seen ∧
                    respondent_fields_ok area_df age_ranges toothpaste_brands
                      reasons e r) acc.1.

(** The sum of the targets of a table of events. *)
Definition total_target (facts : list SamplingFact.t) : Z :=
  foldr (λ e acc, SamplingFact.target e + acc) 0 facts.

(** ** Two runs side by side

    Two states of the process are seeded alike when the generators behind
    [random] and NumPy are in the same state; the [Faker] object may differ. *)
Definition same_seeded {G N F} (w1 w2 : World G N F) : Prop :=
  py_random w1 = py_random w2 ∧ np_random w1 = np_random w2.

(** Two outcomes agree up to [R]: both returned, with values related by [R]
    and the generators still seeded alike, or both raised the same
    exception. *)
Definition agree {G N F A B} (R : A → B → Prop)
    (r1 : result (A * World G N F)) (r2 : result (B * World G N F)) : Prop :=
  match r1, r2 with
  | Ok (a, w1), Ok (b, w2) => R a b ∧ same_seeded w1 w2
  | Raise e1, Raise e2 => e1 = e2
  | _, _ => False
  end.

(** Events that differ at most in their dates, and last equally long. *)
Definition same_event (e1 e2 : SamplingFact.t) : Prop :=
  SamplingFact.samplingID e1 = SamplingFact.samplingID e2 ∧
  SamplingFact.areaID e1 = SamplingFact.areaID e2 ∧
  SamplingFact.promoterID e1 = SamplingFact.promoterID e2 ∧
  SamplingFact.samplingType e1 = SamplingFact.samplingType e2 ∧
  SamplingFact.institutionType e1 = SamplingFact.institutionType e2 ∧
  SamplingFact.target e1 = SamplingFact.target e2 ∧
  SamplingFact.passengers e1 = SamplingFact.passengers e2 ∧
  SamplingFact.toothpasteBrand e1 = SamplingFact.toothpasteBrand e2 ∧
  SamplingFact.endDate e1 - SamplingFact.startDate e1
    = SamplingFact.endDate e2 - SamplingFact.startDate e2.

(** Respondents that differ at most in name, contact and submission date. *)
Definition same_respondent (r1 r2 : Respondent.t) : Prop :=
  Respondent.respondentID r1 = Respondent.respondentID r2 ∧
  Respondent.samplingID r1 = Respondent.samplingID r2 ∧
  Respondent.ageRange r1 = Respondent.ageRange r2 ∧
  Respondent.toothpasteBrand r1 = Respondent.toothpasteBrand r2 ∧
  Respondent.perferredBrand r1 = Respondent.perferredBrand r2 ∧
  Respondent.areaID r1 = Respondent.areaID r2 ∧
  Respondent.residenceArea r1 = Respondent.residenceArea r2 ∧
  Respondent.reason r1 = Respondent.reason r2 ∧
  Respondent.optInOtherProducts r1 = Respondent.optInOtherProducts r2.

(** A computation that returns from every state of the generators. *)
Definition returns {G N F A} (m : M G N F A) : Prop :=
  ∀ w, ∃ a w', m w = Ok (a, w').

(** * Properties *)

(** ** The monad and the loop combinator *)

Section MonadFacts.
Context {G N F : Type}.
Local Abbreviation Gen := (M G N F).

Lemma bind_Ok {A B} (m : Gen A) (k : A → Gen B) w b w' :
  bind m k w = Ok (b, w') →
  ∃ a w1, m w = Ok (a, w1) ∧ k a w1 = Ok (b, w').
Proof.
  unfold bind. destruct (m w) as [[a w1]|e]; [|discriminate].
  intros Hk. by exists a, w1.
Qed.

Lemma ret_Ok {A} (a b : A) (w w' : World G N F) :
  ret a w = Ok (b, w') → b = a ∧ w' = w.
Proof. unfold ret. intros [= -> ->]. done. Qed.

Lemma bind_total {A B} (m : Gen A) (k : A → Gen B) w a w1 :
  m w = Ok (a, w1) → bind m k w = k a w1.
Proof. unfold bind. by intros ->. Qed.

Lemma for_each_cons {A S} (x : A) (xs : list A) (body : A → S → Gen S) (s : S) :
  for_each (x :: xs) body s = (s' <- body x s ;; for_each xs body s').
Proof. done. Qed.

(** Loop invariant indexed by the items already visited. *)
Lemma for_each_inv {A S} (I : list A → S → Prop) (body : A → S → Gen S) :
  (∀ seen x s w s' w',
     I seen s → body x s w = Ok (s', w') → I (seen ++ [x]) s') →
  ∀ xs seen s w s' w',
    I seen s → for_each xs body s w = Ok (s', w') → I (seen ++ xs) s'.
Proof.
  intros Hbody xs. induction xs as [|x xs IH]; intros seen s w s' w' HI Hrun.
  - apply ret_Ok in Hrun as [-> _]. by rewrite app_nil_r.
  - simpl in Hrun. apply bind_Ok in Hrun as (s1 & w1 & Hx & Hrest).
    replace (seen ++ x :: xs) with ((seen ++ [x]) ++ xs)
      by (by rewrite <- app_assoc).
    eapply IH; [|exact Hrest]. eapply Hbody; eauto.
Qed.

Lemma returns_ret {A} (a : A) : returns (ret a : Gen A).
Proof. intros w. by exists a, w. Qed.

Lemma returns_bind {A B} (m : Gen A) (k : A → Gen B) :
  returns m → (∀ a, returns (k a)) → returns (bind m k).
Proof.
  intros Hm Hk w. destruct (Hm w) as (a & w1 & Ha).
  rewrite (bind_total _ _ _ _ _ Ha). apply Hk.
Qed.

(** Progress: a loop whose body always returns, returns. *)
Lemma returns_for_each {A S} (xs : list A) (body : A → S → Gen S) :
  (∀ x s, x ∈ xs → returns (body x s)) → ∀ s, returns (for_each xs body s).
Proof.
  induction xs as [|x xs IH]; intros Hbody s.
  - apply returns_ret.
  - simpl. apply returns_bind.
    + apply Hbody. left.
    + intros s1. apply IH. intros y s2 Hy. apply Hbody. by right.
Qed.
End MonadFacts.

(** Inversion of a successful run, one bind at a time. *)
Ltac run_inv H :=
  cbv beta in H;
  repeat match type of H with
  | bind _ _ _ = Ok _ =>
      let a := fresh "x" in
      let w := fresh "w" in
      let Hm := fresh "Hm" in
      apply bind_Ok in H as (a & w & Hm & H)
  end;
  try (apply ret_Ok in H as [-> ->]).

(** ** The primitives *)

Section Primitives.
Context {G N F : Type} `{!RandomGen G, !RandomGen N, !FakerGen F}.
Implicit Types w : World G N F.

Lemma randint_Ok a b w k w' : randint a b w = Ok (k, w') → a ≤ k ≤ b.
Proof.
  unfold randint. case_decide as Hw; [|discriminate].
  pose proof (randbelow_range (b + 1 - a) (py_random w) Hw) as Hr.
  destruct (randbelow (b + 1 - a) (py_random w)) as [r g]. simpl in Hr.
  intros [= <- _]. lia.
Qed.

Lemma returns_randint a b : a ≤ b → returns (randint a b : M G N F Z).
Proof.
  intros Hab w. unfold randint. rewrite decide_True by lia.
  destruct (randbelow (b + 1 - a) (py_random w)) as [r g]. eauto.
Qed.

Lemma randint_Raise a b w e : randint a b w = Raise e → b < a ∧ e = ValueError.
Proof.
  unfold randint. case_decide as Hw.
  - by destruct (randbelow (b + 1 - a) (py_random w)).
  - intros [= <-]. split; [lia|done].
Qed.

Lemma choice_Ok {A} (seq : list A) w x w' : choice seq w = Ok (x, w') → x ∈ seq.
Proof.
  unfold choice. case_decide; [discriminate|].
  destruct (randbelow _ (py_random w)) as [r g].
  destruct (seq !! Z.to_nat r) as [y|] eqn:Hy; [|discriminate].
  intros [= <- _]. by eapply list_elem_of_lookup_2.
Qed.

Lemma returns_choice {A} (seq : list A) :
  seq ≠ [] → returns (choice seq : M G N F A).
Proof.
  intros Hne w. unfold choice.
  assert (length seq ≠ 0%nat) as Hlen by (by destruct seq).
  rewrite decide_False by done.
  pose proof (randbelow_range (Z.of_nat (length seq)) (py_random w)) as Hr.
  destruct (randbelow _ (py_random w)) as [r g]. simpl in Hr.
  destruct (lookup_lt_is_Some_2 seq (Z.to_nat r)) as [y ->]; [lia|]. eauto.
Qed.

Lemma sample1_Ok {A} (df : list A) w x w' : sample1 df w = Ok (x, w') → x ∈ df.
Proof.
  unfold sample1. case_decide; [discriminate|].
  destruct (randbelow _ (np_random w)) as [r g].
  destruct (df !! Z.to_nat r) as [y|] eqn:Hy; [|discriminate].
  intros [= <- _]. by eapply list_elem_of_lookup_2.
Qed.

Lemma returns_sample1 {A} (df : list A) :
  df ≠ [] → returns (sample1 df : M G N F A).
Proof.
  intros Hne w. unfold sample1.
  assert (length df ≠ 0%nat) as Hlen by (by destruct df).
  rewrite decide_False by done.
  pose proof (randbelow_range (Z.of_nat (length df)) (np_random w)) as Hr.
  destruct (randbelow _ (np_random w)) as [r g]. simpl in Hr.
  destruct (lookup_lt_is_Some_2 df (Z.to_nat r)) as [y ->]; [lia|]. eauto.
Qed.

Lemma date_range_elem d s e : d ∈ date_range s e ↔ s ≤ d ≤ e.
Proof. unfold date_range. rewrite elem_of_seqZ. lia. Qed.

Lemma returns_fake_name : returns (fake_name : M G N F string).
Proof. intros w. unfold fake_name. destruct (faker_name (faker w)). eauto. Qed.

Lemma returns_fake_phone_number : returns (fake_phone_number : M G N F string).
Proof. intros w. unfold fake_phone_number. destruct (faker_phone_number (faker w)). eauto. Qed.

Lemma returns_fake_date_between a b :
  returns (fake_date_between a b : M G N F Z).
Proof. intros w. unfold fake_date_between. destruct (faker_date_between a b (faker w)). eauto. Qed.
End Primitives.

(** ** The area table *)

Section AreaFacts.
Implicit Types (ds : list (string * string)) (n : Z).

Lemma area_pair_fold region district (recs : list Area.t) n :
  fold_left (area_append region district) (range 2) (recs, n)
  = (recs ++ [area_row n region district 1; area_row (n + 1) region district 2],
     n + 2).
Proof.
  unfold range, area_row. change (seqZ 0 2) with [0; 1].
  cbn [fold_left area_append]. rewrite <- app_assoc.
  f_equal. lia.
Qed.

Lemma area_district_fold region (districts : list string) (recs : list Area.t) n :
  fold_left
    (λ acc district, fold_left (area_append region district) (range 2) acc)
    districts (recs, n)
  = (recs ++ area_rows ((λ d, (region, d)) <$> districts) n,
     n + 2 * Z.of_nat (length districts)).
Proof.
  revert recs n. induction districts as [|d districts IH]; intros recs n.
  - simpl. rewrite app_nil_r. f_equal. lia.
  - cbn [fold_left]. rewrite area_pair_fold, IH. cbn [fmap list_fmap area_rows length].
    rewrite <- app_assoc. simpl. f_equal. lia.
Qed.

Lemma area_rows_app ds1 ds2 n :
  area_rows (ds1 ++ ds2) n
  = area_rows ds1 n ++ area_rows ds2 (n + 2 * Z.of_nat (length ds1)).
Proof.
  revert n. induction ds1 as [|[r d] ds1 IH]; intros n.
  - simpl. f_equal. lia.
  - cbn [app area_rows length]. rewrite IH. simpl. do 4 f_equal. lia.
Qed.

Lemma area_region_fold (rd : list (string * list string)) (recs : list Area.t) n :
  fold_left
    (λ acc (item : string * list string),
       let '(region, districts) := item in
       fold_left
         (λ acc district, fold_left (area_append region district) (range 2) acc)
         districts acc)
    rd (recs, n)
  = (recs ++ area_rows (districts_of rd) n,
     n + 2 * Z.of_nat (length (districts_of rd))).
Proof.
  revert recs n. induction rd as [|[region districts] rd IH]; intros recs n.
  - simpl. rewrite app_nil_r. f_equal. lia.
  - cbn [fold_left]. rewrite area_district_fold, IH.
    unfold districts_of. cbn [flat_map fst snd].
    rewrite area_rows_app, length_app, !length_fmap, <- app_assoc.
    f_equal. lia.
Qed.

Lemma generate_area_data_rows (rd : list (string * list string)) n :
  generate_area_data rd n = area_rows (districts_of rd) n.
Proof. unfold generate_area_data. by rewrite area_region_fold. Qed.

Lemma area_rows_length ds n : length (area_rows ds n) = (2 * length ds)%nat.
Proof.
  revert n. induction ds as [|[r d] ds IH]; intros n; [done|].
  cbn [area_rows length]. rewrite IH. lia.
Qed.

Lemma area_rows_ids ds n :
  Area.areaID <$> area_rows ds n
  = (λ i, "A " +:+ pretty i) <$> seqZ n (2 * Z.of_nat (length ds)).
Proof.
  revert n. induction ds as [|[r d] ds IH]; intros n; [done|].
  cbn [area_rows fmap list_fmap length]. fold (@fmap list _ _ _ Area.areaID).
  replace (2 * Z.of_nat (S (length ds))) with (Z.succ (Z.succ (2 * Z.of_nat (length ds)))) by lia.
  rewrite seqZ_cons by lia. rewrite Z.pred_succ.
  rewrite seqZ_cons by lia. rewrite Z.pred_succ.
  cbn [fmap list_fmap]. fold (@fmap list _ _ _ (λ i : Z, "A " +:+ pretty i)).
  rewrite IH. unfold area_row. cbn [Area.areaID].
  replace (Z.succ (Z.succ n)) with (n + 2) by lia.
  replace (Z.succ n) with (n + 1) by lia. done.
Qed.

Lemma area_rows_imap ds n :
  area_rows ds n
  = concat (imap (λ (k : nat) (rd : string * string),
                    [ area_row (n + 2 * Z.of_nat k) rd.1 rd.2 1;
                      area_row (n + 2 * Z.of_nat k + 1) rd.1 rd.2 2 ]) ds).
Proof.
  revert n. induction ds as [|[r d] ds IH]; intros n; [done|].
  rewrite imap_cons. cbn [area_rows concat app fst snd]. rewrite IH.
  replace (n + 2 * Z.of_nat 0) with n by lia.
  do 3 f_equal. apply imap_ext. intros k [r' d'] _. simpl.
  replace (n + 2 * Z.of_nat (S k)) with (n + 2 + 2 * Z.of_nat k) by lia. done.
Qed.

Lemma area_id_inj : Inj (=) (=) (λ i : Z, "A " +:+ pretty i).
Proof. intros i j Hij. simpl in Hij. injection Hij as Hij. by apply (inj pretty). Qed.

(** The tables of [main] that involve no randomness: the lookup data has ten
    districts (four, three and three), hence twenty areas. *)
Example area_table_of_main :
  let rows := generate_area_data (regions_districts define_lookup_data) 1001 in
  length rows = 20%nat ∧
  take 2 rows
  = [ {| Area.areaID := "A 1001"; Area.AreaName := "La Nkwantanang Area 1";
         Area.region := "Greater Accra"; Area.district := "La Nkwantanang" |};
      {| Area.areaID := "A 1002"; Area.AreaName := "La Nkwantanang Area 2";
         Area.region := "Greater Accra"; Area.district := "La Nkwantanang" |} ] ∧
  Area.areaID <$> last rows = Some "A 1020".
Proof. vm_compute. done. Qed.

Example sampling_type_table_of_main :
  SamplingTypeDF.index
    (generate_sampling_type_df (sampling_types define_lookup_data))
  = ["ST1"; "ST2"; "ST3"; "ST4"; "ST5"].
Proof. reflexivity. Qed.

Lemma district_count (rd : list (string * list string)) :
  length (districts_of rd)
  = sum_list ((λ item : string * list string, length item.2) <$> rd).
Proof.
  unfold districts_of. induction rd as [|[r districts] rd IH]; [done|].
  cbn [flat_map fmap list_fmap sum_list_with sum_list fst snd].
  rewrite length_app, length_fmap. unfold sum_list in IH. by rewrite IH.
Qed.
End AreaFacts.

(** C8.  For every region-to-districts mapping and every start identifier,
    [generate_area_data] returns two rows per district, in mapping iteration
    order: district number [k] gets the identifiers "A {start_id + 2k}" and
    "A {start_id + 2k + 1}" with the names "{district} Area 1" and
    "{district} Area 2".  The table has twice as many rows as there are
    districts, its identifiers are "A {n}" for the consecutive [n] from
    [start_id], and they are pairwise distinct. *)
Theorem generate_area_data_two_rows_per_district
    (regions_districts : list (string * list string)) (start_id : Z) :
  let rows := generate_area_data regions_districts start_id in
  rows = area_table_spec regions_districts start_id ∧
  length rows
    = (2 * sum_list ((λ item : string * list string, length item.2)
                       <$> regions_districts))%nat ∧
  Area.areaID <$> rows
    = (λ n, "A " +:+ pretty n) <$> seqZ start_id (Z.of_nat (length rows)) ∧
  NoDup (Area.areaID <$> rows).
Proof.
  intros rows. subst rows. rewrite generate_area_data_rows.
  assert (Area.areaID <$> area_rows (districts_of regions_districts) start_id
          = (λ n, "A " +:+ pretty n)
              <$> seqZ start_id
                    (Z.of_nat (length (area_rows (districts_of regions_districts)
                                                 start_id)))) as Hids.
  { rewrite area_rows_ids, area_rows_length. do 2 f_equal. lia. }
  split_and!.
  - unfold area_table_spec. apply area_rows_imap.
  - by rewrite area_rows_length, district_count.
  - exact Hids.
  - rewrite Hids. apply NoDup_fmap_2_strong; [|apply NoDup_seqZ].
    intros i j _ _. apply area_id_inj.
Qed.

(** ** The sampling-event generator *)

Section SamplingFacts.
Context {G N F : Type} `{!RandomGen G, !RandomGen N, !FakerGen F}.
Implicit Types w : World G N F.

Variables (area_df : list Area.t) (promoter_df : list Promoter.t).
Variables (sampling_type_df : SamplingTypeDF.t).
Variables (institution_types toothpaste_brands : list string).
Variables (num_samples start_id : Z).

Lemma generate_sampling_facts_rows w facts w' :
  generate_sampling_facts area_df promoter_df sampling_type_df
    institution_types toothpaste_brands num_samples start_id w = Ok (facts, w') →
  Forall (event_ok area_df promoter_df sampling_type_df institution_types
            toothpaste_brands) facts ∧
  SamplingFact.samplingID <$> facts
    = (λ i, "S" +:+ pretty (start_id + i)) <$> range num_samples.
Proof.
  unfold generate_sampling_facts. intros Hrun.
  set (I := λ (seen : list Z) (rows : list SamplingFact.t),
              Forall (event_ok area_df promoter_df sampling_type_df
                        institution_types toothpaste_brands) rows ∧
              SamplingFact.samplingID <$> rows
                = (λ i, "S" +:+ pretty (start_id + i)) <$> seen).
  change (I ([] ++ range num_samples) facts).
  eapply for_each_inv; [|by split|exact Hrun].
  clear. intros seen i rows w rows' w' [Hrows Hids] Hbody.
  run_inv Hbody.
  apply sample1_Ok in Hm. apply sample1_Ok in Hm0. apply choice_Ok in Hm1.
  apply randint_Ok in Hm3. apply choice_Ok in Hm6.
  split.
  - apply Forall_app. split; [done|]. apply Forall_singleton.
    unfold event_ok. cbn [SamplingFact.areaID SamplingFact.promoterID
      SamplingFact.samplingType SamplingFact.institutionType SamplingFact.target
      SamplingFact.passengers SamplingFact.toothpasteBrand
      SamplingFact.startDate SamplingFact.endDate].
    split_and!; try done; try lia.
    + by apply list_elem_of_fmap_2.
    + by apply list_elem_of_fmap_2.
    + revert Hm2. destruct (decide (x1 = "ST5")); intros Hm2.
      * apply bind_Ok in Hm2 as (y & wy & Hy & Hret).
        apply ret_Ok in Hret as [-> _]. apply choice_Ok in Hy. eauto.
      * by apply ret_Ok in Hm2 as [-> _].
    + revert Hm4. destruct (decide (x1 = "ST2")); intros Hm4.
      * apply bind_Ok in Hm4 as (y & wy & Hy & Hret).
        apply ret_Ok in Hret as [-> _]. apply randint_Ok in Hy. eauto.
      * by apply ret_Ok in Hm4 as [-> _].
  - rewrite !fmap_app, Hids. done.
Qed.

Lemma generate_sampling_facts_returns :
  area_df ≠ [] → promoter_df ≠ [] →
  SamplingTypeDF.index sampling_type_df ≠ [] →
  institution_types ≠ [] → toothpaste_brands ≠ [] →
  returns (generate_sampling_facts area_df promoter_df sampling_type_df
             institution_types toothpaste_brands num_samples start_id
           : M G N F _).
Proof.
  intros Ha Hp Ht Hi Hb. unfold generate_sampling_facts.
  apply returns_for_each. intros i rows _.
  apply returns_bind; [by apply returns_sample1|intros area].
  apply returns_bind; [by apply returns_sample1|intros promoter].
  apply returns_bind; [by apply returns_choice|intros sampling_type].
  apply returns_bind.
  { case_decide; [|apply returns_ret].
    apply returns_bind; [by apply returns_choice|intros; apply returns_ret]. }
  intros institution_type.
  apply returns_bind; [by apply returns_randint|intros target].
  apply returns_bind.
  { case_decide; [|apply returns_ret].
    apply returns_bind; [by apply returns_randint|intros; apply returns_ret]. }
  intros passengers.
  apply returns_bind; [apply returns_fake_date_between|intros start_date].
  apply returns_bind; [by apply returns_choice|intros brand].
  apply returns_ret.
Qed.
End SamplingFacts.

(** ** The respondent generator *)

Ltac use_prims :=
  repeat match goal with
  | H : choice _ _ = Ok _ |- _ => apply choice_Ok in H
  | H : sample1 _ _ = Ok _ |- _ => apply sample1_Ok in H
  | H : randint _ _ _ = Ok _ |- _ => apply randint_Ok in H
  end.

Section Respondents.
Context {G N F : Type} `{!RandomGen G, !RandomGen N, !FakerGen F}.
Implicit Types w : World G N F.

Variables (area_df : list Area.t).
Variables (age_ranges toothpaste_brands reasons : list string).

Lemma respondent_record_ok sampling rid w r w' :
  respondent_record sampling area_df age_ranges toothpaste_brands reasons rid w
    = Ok (r, w') →
  respondent_ok area_df sampling r.
Proof.
  unfold respondent_record. intros Hrun. run_inv Hrun. use_prims.
  match goal with
  | H : _ ∈ date_range _ _ |- _ => apply date_range_elem in H
  end.
  unfold respondent_ok. cbn. split_and!; try done; lia.
Qed.

Lemma respondent_batch_ok sampling resps rid w resps' rid' w' :
  respondent_batch area_df age_ranges toothpaste_brands reasons sampling
    (resps, rid) w = Ok ((resps', rid'), w') →
  ∃ batch, resps' = resps ++ batch ∧ batch_ok area_df sampling batch.
Proof.
  unfold respondent_batch. intros Hrun.
  apply bind_Ok in Hrun as (actual & w1 & Hactual & Hloop).
  apply randint_Ok in Hactual.
  set (I := λ (seen : list Z) (acc : list Respondent.t * Z),
              ∃ batch, acc.1 = resps ++ batch ∧
                       length batch = length seen ∧
                       Forall (respondent_ok area_df sampling) batch).
  assert (I ([] ++ range actual) (resps', rid')) as (batch & Hb & Hlen & Hok).
  { eapply for_each_inv; [| |exact Hloop].
    - clear. intros seen i [rs n] w [rs' n'] w' (batch & Hb & Hlen & Hok) Hbody.
      simpl in Hb. subst rs. unfold respondent_append in Hbody.
      apply bind_Ok in Hbody as (r & w1 & Hr & Hret).
      apply ret_Ok in Hret as [[= -> ->] _].
      apply respondent_record_ok in Hr.
      exists (batch ++ [r]). split_and!.
      + simpl. by rewrite app_assoc.
      + rewrite !length_app. simpl. lia.
      + apply Forall_app. split; [done|]. by apply Forall_singleton.
    - exists []. split_and!; [by rewrite app_nil_r|done|done]. }
  exists batch. split; [done|]. split; [|done].
  simpl in Hlen. unfold range in Hlen. rewrite length_seqZ in Hlen. lia.
Qed.

Lemma generate_respondents_batches facts rid w resps w' :
  generate_respondents facts area_df age_ranges toothpaste_brands reasons rid w
    = Ok (resps, w') →
  ∃ batches, resps = concat batches ∧ Forall2 (batch_ok area_df) facts batches.
Proof.
  unfold generate_respondents. intros Hrun.
  apply bind_Ok in Hrun as ([rs n] & w1 & Hloop & Hret).
  apply ret_Ok in Hret as [-> _]. simpl.
  set (I := λ (seen : list SamplingFact.t) (acc : list Respondent.t * Z),
              ∃ batches, acc.1 = concat batches ∧
                         Forall2 (batch_ok area_df) seen batches).
  change (I ([] ++ facts) (rs, n)).
  eapply for_each_inv; [| |exact Hloop].
  - clear. intros seen e [rs n] w [rs' n'] w' (batches & Hb & Hok) Hbody.
    simpl in Hb. subst rs. apply respondent_batch_ok in Hbody as (batch & -> & Hbatch).
    exists (batches ++ [batch]). split.
    + simpl. rewrite concat_app. simpl. by rewrite app_nil_r.
    + apply Forall2_app; [done|]. by constructor.
  - exists []. split; [done|constructor].
Qed.

Lemma generate_respondents_returns facts rid :
  Forall (λ e, 100 ≤ SamplingFact.target e ∧
               SamplingFact.startDate e ≤ SamplingFact.endDate e) facts →
  (facts = [] ∨ area_df ≠ []) →
  age_ranges ≠ [] → toothpaste_brands ≠ [] → reasons ≠ [] →
  returns (generate_respondents facts area_df age_ranges toothpaste_brands
             reasons rid : M G N F _).
Proof.
  intros Hfacts Harea Ha Hb Hr. unfold generate_respondents.
  apply returns_bind; [|intros; apply returns_ret].
  apply returns_for_each. intros e [rs n] He.
  rewrite Forall_forall in Hfacts. destruct (Hfacts e He) as [Htarget Hdates].
  assert (area_df ≠ []) as Hne by (destruct Harea as [->|]; [by inversion He|done]).
  unfold respondent_batch.
  apply returns_bind; [by apply returns_randint|intros actual].
  apply returns_for_each. intros i [rs' n'] _.
  unfold respondent_append, respondent_record.
  repeat (apply returns_bind; [|intros ?]); try apply returns_ret;
    try apply returns_fake_name; try apply returns_fake_phone_number;
    try (by apply returns_choice).
  - apply returns_sample1. by destruct area_df.
  - apply returns_choice. unfold date_range.
    rewrite seqZ_cons by lia. done.
Qed.
End Respondents.

(** ** The pipeline of [main] *)

Section Pipeline.
Context {G N F : Type} `{!RandomGen G, !RandomGen N, !FakerGen F}.
Implicit Types w : World G N F.

Lemma returns_bind_post {A B} (P : A → Prop) (m : M G N F A) (k : A → M G N F B) :
  returns m →
  (∀ w a w', m w = Ok (a, w') → P a) →
  (∀ a, P a → returns (k a)) →
  returns (bind m k).
Proof.
  intros Hm HP Hk w. destruct (Hm w) as (a & w1 & Ha).
  rewrite (bind_total _ _ _ _ _ Ha). eapply Hk, HP, Ha.
Qed.

Lemma generate_promoter_data_returns num_promoters start_id :
  returns (generate_promoter_data num_promoters start_id : M G N F _).
Proof.
  unfold generate_promoter_data. apply returns_for_each. intros i ps _.
  apply returns_bind; [apply returns_fake_name|intros name].
  apply returns_bind; [apply returns_fake_phone_number|intros contact].
  apply returns_ret.
Qed.

Lemma generate_promoter_data_length num_promoters start_id w ps w' :
  generate_promoter_data num_promoters start_id w = Ok (ps, w') →
  Promoter.promoterID <$> ps
    = (λ i, "P" +:+ pretty (start_id + i)) <$> range num_promoters.
Proof.
  unfold generate_promoter_data. intros Hrun.
  set (I := λ (seen : list Z) (rows : list Promoter.t),
              Promoter.promoterID <$> rows
                = (λ i, "P" +:+ pretty (start_id + i)) <$> seen).
  change (I ([] ++ range num_promoters) ps).
  eapply for_each_inv; [| |exact Hrun]; [|done].
  clear. intros seen i rows w rows' w' Hids Hbody. run_inv Hbody.
  unfold I in *. by rewrite !fmap_app, Hids.
Qed.

(** The events drawn from the tables satisfy what the respondent generator
    needs of them. *)
Lemma event_ok_ready area_df promoter_df sampling_type_df institution_types
    toothpaste_brands (facts : list SamplingFact.t) :
  Forall (event_ok area_df promoter_df sampling_type_df institution_types
            toothpaste_brands) facts →
  Forall (λ e, 100 ≤ SamplingFact.target e ∧
               SamplingFact.startDate e ≤ SamplingFact.endDate e) facts ∧
  (facts = [] ∨ area_df ≠ []).
Proof.
  intros Hok. split.
  - apply (Forall_impl _ _ _ Hok). intros e (_ & _ & _ & _ & Ht & _ & Hd & _).
    split; lia.
  - destruct facts as [|e facts]; [by left|right].
    apply Forall_cons in Hok as [(Ha & _) _]. intros ->. by inversion Ha.
Qed.

Lemma main_inv w wb w' :
  main w = Ok (wb, w') →
  let area_df := generate_area_data (regions_districts define_lookup_data) 1001 in
  let sampling_type_df :=
    generate_sampling_type_df (sampling_types define_lookup_data) in
  ∃ w0 w1 w2,
    initialize_faker 42 w = Ok ((), w0) ∧
    generate_promoter_data 5 1000 w0 = Ok (sheet_Promoter wb, w1) ∧
    generate_sampling_facts area_df (sheet_Promoter wb) sampling_type_df
      (institution_types define_lookup_data)
      (toothpaste_brands define_lookup_data) 6 1000 w1
      = Ok (sheet_SamplingFact wb, w2) ∧
    generate_respondents (sheet_SamplingFact wb) area_df
      (age_ranges define_lookup_data) (toothpaste_brands define_lookup_data)
      (reasons define_lookup_data) 1000 w2
      = Ok (sheet_Respondents wb, w') ∧
    sheet_Area wb = area_df ∧
    sheet_SamplingType wb = sampling_type_df.
Proof.
  unfold main. intros Hrun. run_inv Hrun. destruct x.
  cbn [export_to_excel sheet_Area sheet_Promoter sheet_SamplingFact
         sheet_Respondents sheet_SamplingType].
  eauto 10.
Qed.

(** Every respondent comes from one of the events of the table. *)
Lemma generate_respondents_parents facts area_df age_ranges toothpaste_brands
    reasons rid w respondents w' :
  generate_respondents facts area_df age_ranges toothpaste_brands reasons rid w
    = Ok (respondents, w') →
  Forall (λ r, ∃ e, e ∈ facts ∧ respondent_ok area_df e r) respondents.
Proof.
  intros Hrun. apply generate_respondents_batches in Hrun as (batches & -> & Hok).
  apply Forall_concat. induction Hok as [|e batch es bs [_ Hrows] _ IH].
  - constructor.
  - constructor.
    + apply (Forall_impl _ _ _ Hrows). intros r Hr.
      exists e. split; [left|done].
    + apply (Forall_impl _ _ _ IH). intros b Hb.
      apply (Forall_impl _ _ _ Hb). intros r (e' & He' & Hr).
      exists e'. split; [by right|done].
Qed.

(** The first promoter is named by the first draw of the [Faker] object. *)
Lemma first_promoter_name w ps w' :
  generate_promoter_data 5 1000 w = Ok (ps, w') →
  Promoter.name <$> head ps = Some (faker_name (faker w)).1.
Proof.
  unfold generate_promoter_data. change (range 5) with [0; 1; 2; 3; 4].
  rewrite for_each_cons. intros Hrun.
  apply bind_Ok in Hrun as (rows1 & w1 & Hfirst & Hrest).
  run_inv Hfirst. unfold fake_name in Hm.
  destruct (faker_name (faker w)) as [name f]. injection Hm as <- _.
  set (I := λ (seen : list Z) (rows : list Promoter.t),
              Promoter.name <$> head rows = Some name).
  change (I ([] ++ [1; 2; 3; 4]) ps).
  eapply for_each_inv; [| |exact Hrest]; [|done].
  clear. intros seen i rows w rows' w' Hhead Hbody. run_inv Hbody.
  unfold I in *. destruct rows; [done|]. done.
Qed.

Lemma main_first_promoter w wb w' :
  main w = Ok (wb, w') →
  Promoter.name <$> head (sheet_Promoter wb) = Some (faker_name (faker w)).1.
Proof.
  intros Hrun. apply main_inv in Hrun as (w0 & w1 & w2 & Hinit & Hps & _).
  apply first_promoter_name in Hps. rewrite Hps.
  unfold initialize_faker in Hinit. by injection Hinit as <-.
Qed.

(** [main] seeds the two module-level generators, but its output still
    depends on the state the [Faker] object starts from. *)
Lemma main_output_depends_on_faker w1 w2 wb1 wb2 w1' w2' :
  (faker_name (faker w1)).1 ≠ (faker_name (faker w2)).1 →
  main w1 = Ok (wb1, w1') → main w2 = Ok (wb2, w2') →
  sheet_Promoter wb1 ≠ sheet_Promoter wb2.
Proof.
  intros Hne H1 H2 Heq. apply main_first_promoter in H1, H2.
  rewrite Heq in H1. congruence.
Qed.

Lemma main_returns : returns (main : M G N F Workbook).
Proof.
  unfold main.
  apply returns_bind; [intros w; unfold initialize_faker; eauto|intros _].
  apply (returns_bind_post (λ ps : list Promoter.t, ps ≠ [])).
  { apply generate_promoter_data_returns. }
  { intros w ps w' Hrun. apply generate_promoter_data_length in Hrun.
    intros ->. discriminate Hrun. }
  intros promoter_df Hpromoters. cbv zeta.
  apply (returns_bind_post
           (Forall (event_ok
                      (generate_area_data (regions_districts define_lookup_data) 1001)
                      promoter_df
                      (generate_sampling_type_df (sampling_types define_lookup_data))
                      (institution_types define_lookup_data)
                      (toothpaste_brands define_lookup_data)))).
  - by apply generate_sampling_facts_returns.
  - intros w facts w' Hrun. by apply generate_sampling_facts_rows in Hrun as [? _].
  - intros facts Hfacts. apply event_ok_ready in Hfacts as [Hready Hne].
    apply returns_bind; [|intros; apply returns_ret].
    by apply generate_respondents_returns.
Qed.
End Pipeline.

(** * The claims *)

Section SamplingFactClaims.
Context {G N F : Type} `{!RandomGen G, !RandomGen N, !FakerGen F}.
Implicit Types w : World G N F.

Variables (area_df : list Area.t) (promoter_df : list Promoter.t).
Variables (sampling_type_df : SamplingTypeDF.t).
Variables (institution_types toothpaste_brands : list string).
Variables (num_samples start_id : Z).

(** C1, as amended.  Every sampling event produced by
    [generate_sampling_facts] has an integer target between 100 and 200, both
    ends included: [random.randint(100, 200)] can return 200. *)
Theorem sampling_target_between_100_and_200 w facts w' :
  generate_sampling_facts area_df promoter_df sampling_type_df
    institution_types toothpaste_brands num_samples start_id w = Ok (facts, w') →
  Forall (λ e, 100 ≤ SamplingFact.target e ≤ 200) facts.
Proof.
  intros Hrun. apply generate_sampling_facts_rows in Hrun as [Hrows _].
  apply (Forall_impl _ _ _ Hrows). intros e He. apply He.
Qed.

(** C2.  Every sampling event produced by [generate_sampling_facts] has its
    institution type set exactly when its sampling type is "ST5", and its
    passenger count set exactly when its sampling type is "ST2". *)
Theorem optional_fields_follow_sampling_type w facts w' :
  generate_sampling_facts area_df promoter_df sampling_type_df
    institution_types toothpaste_brands num_samples start_id w = Ok (facts, w') →
  Forall (λ e,
            (is_Some (SamplingFact.institutionType e)
               ↔ SamplingFact.samplingType e = "ST5") ∧
            (is_Some (SamplingFact.passengers e)
               ↔ SamplingFact.samplingType e = "ST2")) facts.
Proof.
  intros Hrun. apply generate_sampling_facts_rows in Hrun as [Hrows _].
  apply (Forall_impl _ _ _ Hrows).
  intros e (_ & _ & _ & Hinst & _ & Hpass & _). split.
  - destruct (decide (SamplingFact.samplingType e = "ST5")) as [Heq|Hne].
    + destruct Hinst as (x & _ & ->). split; [done|by eexists].
    + rewrite Hinst. split; [by intros [? [=]]|done].
  - destruct (decide (SamplingFact.samplingType e = "ST2")) as [Heq|Hne].
    + destruct Hpass as (n & _ & ->). split; [done|by eexists].
    + rewrite Hpass. split; [by intros [? [=]]|done].
Qed.

(** C4.  Every sampling event produced by [generate_sampling_facts] ends
    exactly 30 days after it starts. *)
Theorem end_date_is_start_date_plus_30 w facts w' :
  generate_sampling_facts area_df promoter_df sampling_type_df
    institution_types toothpaste_brands num_samples start_id w = Ok (facts, w') →
  Forall (λ e, SamplingFact.endDate e = SamplingFact.startDate e + 30) facts.
Proof.
  intros Hrun. apply generate_sampling_facts_rows in Hrun as [Hrows _].
  apply (Forall_impl _ _ _ Hrows). intros e He. apply He.
Qed.

(** C9, as amended.  Whenever a sampling event produced by
    [generate_sampling_facts] has a passenger count, the count is an integer
    between 5 and 10, both ends included: [random.randint(5, 10)] can
    return 10. *)
Theorem passengers_between_5_and_10 w facts w' :
  generate_sampling_facts area_df promoter_df sampling_type_df
    institution_types toothpaste_brands num_samples start_id w = Ok (facts, w') →
  Forall (λ e, ∀ n, SamplingFact.passengers e = Some n → 5 ≤ n ≤ 10) facts.
Proof.
  intros Hrun. apply generate_sampling_facts_rows in Hrun as [Hrows _].
  apply (Forall_impl _ _ _ Hrows).
  intros e (_ & _ & _ & _ & _ & Hpass & _) n Hn.
  destruct (decide (SamplingFact.samplingType e = "ST2")).
  - destruct Hpass as (n' & Hrange & Hn'). congruence.
  - congruence.
Qed.

(** C10.  In every table produced by [generate_sampling_facts] each target
    is at least 100; hence the batch-size draw [random.randint(100, target)]
    of [generate_respondents] returns in every state of the generator, with a
    value in [100, target], and [generate_respondents] run on that table (with
    the same area table and non-empty option lists, as in [main]) returns
    instead of raising. *)
Theorem batch_size_draw_never_raises w facts w' :
  generate_sampling_facts area_df promoter_df sampling_type_df
    institution_types toothpaste_brands num_samples start_id w = Ok (facts, w') →
  Forall (λ e,
            100 ≤ SamplingFact.target e ∧
            ∀ w1 : World G N F, ∃ actual w2,
              randint 100 (SamplingFact.target e) w1 = Ok (actual, w2) ∧
              100 ≤ actual ≤ SamplingFact.target e) facts ∧
  ∀ age_ranges brands reasons respondent_start,
    age_ranges ≠ [] → brands ≠ [] → reasons ≠ [] →
    returns (generate_respondents facts area_df age_ranges brands reasons
               respondent_start : M G N F _).
Proof.
  intros Hrun. apply generate_sampling_facts_rows in Hrun as [Hrows _].
  destruct (event_ok_ready _ _ _ _ _ _ Hrows) as [Hready Hne]. split.
  - apply (Forall_impl _ _ _ Hready). intros e [Ht _]. split; [done|].
    intros w1. destruct (returns_randint 100 (SamplingFact.target e) Ht w1)
      as (actual & w2 & Hdraw).
    exists actual, w2. split; [done|]. by apply randint_Ok in Hdraw.
  - intros ages brands reasons rid Ha Hb Hr.
    by apply generate_respondents_returns.
Qed.
End SamplingFactClaims.

Section RespondentClaims.
Context {G N F : Type} `{!RandomGen G, !RandomGen N, !FakerGen F}.
Implicit Types w : World G N F.

Variables (sampling_fact_df : list SamplingFact.t) (area_df : list Area.t).
Variables (age_ranges toothpaste_brands reasons : list string).
Variables (start_id : Z).

(** C3, as amended.  A row with a target below 100 makes the whole run
    raise, so no batch is produced for any row of such a table, the rows with
    a target of at least 100 included.  Whenever [generate_respondents]
    returns, the respondent table it produced is the
    concatenation, in event order, of one batch per sampling event; the
    respondents of a batch reference that event, and the size of the batch
    lies between 100 and the event's target, both included. *)
Theorem respondent_batch_size_in_range w respondents w' :
  generate_respondents sampling_fact_df area_df age_ranges toothpaste_brands
    reasons start_id w = Ok (respondents, w') →
  ∃ batches,
    respondents = concat batches ∧
    Forall2 (λ e batch,
               Forall (λ r, Respondent.samplingID r = SamplingFact.samplingID e)
                      batch ∧
               100 ≤ Z.of_nat (length batch) ≤ SamplingFact.target e)
            sampling_fact_df batches.
Proof.
  intros Hrun. apply generate_respondents_batches in Hrun as (batches & -> & Hok).
  exists batches. split; [done|].
  apply (Forall2_impl _ _ _ _ Hok). intros e batch [Hsize Hrows]. split; [|done].
  apply (Forall_impl _ _ _ Hrows). intros r Hr. apply Hr.
Qed.

(** C5.  Every respondent produced by [generate_respondents] references a
    sampling event of the input table whose date range, from start date to
    end date with both days included, contains the submission date. *)
Theorem submission_date_within_event_range w respondents w' :
  generate_respondents sampling_fact_df area_df age_ranges toothpaste_brands
    reasons start_id w = Ok (respondents, w') →
  Forall (λ r, ∃ e, e ∈ sampling_fact_df ∧
                    Respondent.samplingID r = SamplingFact.samplingID e ∧
                    SamplingFact.startDate e ≤ Respondent.dateOfSubmistion r
                      ≤ SamplingFact.endDate e) respondents.
Proof.
  intros Hrun. apply generate_respondents_parents in Hrun.
  apply (Forall_impl _ _ _ Hrun). intros r (e & He & Hid & _ & _ & _ & Hdate).
  by exists e.
Qed.
End RespondentClaims.

Section PipelineClaims.
Context {G N F : Type} `{!RandomGen G, !RandomGen N, !FakerGen F}.
Implicit Types w : World G N F.

(** C7.  In the workbook produced by [main] every foreign key resolves: each
    sampling event's area, promoter and sampling type occur in the Area
    sheet, the Promoter sheet and the index of the SamplingType sheet, and
    each respondent's sampling event and area occur in the SamplingFact sheet
    and the Area sheet. *)
Theorem main_foreign_keys_resolve w wb w' :
  main w = Ok (wb, w') →
  Forall (λ e,
            SamplingFact.areaID e ∈ Area.areaID <$> sheet_Area wb ∧
            SamplingFact.promoterID e
              ∈ Promoter.promoterID <$> sheet_Promoter wb ∧
            SamplingFact.samplingType e
              ∈ SamplingTypeDF.index (sheet_SamplingType wb))
         (sheet_SamplingFact wb) ∧
  Forall (λ r,
            Respondent.samplingID r
              ∈ SamplingFact.samplingID <$> sheet_SamplingFact wb ∧
            Respondent.areaID r ∈ Area.areaID <$> sheet_Area wb)
         (sheet_Respondents wb).
Proof.
  intros Hrun.
  apply main_inv in Hrun as (w0 & w1 & w2 & _ & _ & Hfacts & Hresp & -> & ->).
  apply generate_sampling_facts_rows in Hfacts as [Hrows _].
  apply generate_respondents_parents in Hresp. split.
  - apply (Forall_impl _ _ _ Hrows). intros e (Ha & Hp & Ht & _). done.
  - apply (Forall_impl _ _ _ Hresp). intros r (e & He & Hid & Harea & _).
    rewrite Hid, Harea. split.
    + by apply list_elem_of_fmap_2.
    + rewrite Forall_forall in Hrows. apply (Hrows e He).
Qed.
End PipelineClaims.

(** C6.  Two runs of [main], both seeding the module-level generators with
    42, write different Promoter sheets when the generator inside the [Faker]
    object starts from different entropy: the script never seeds it. *)
Theorem main_same_seed_different_output :
  ∃ wb_a wb_b w_a w_b,
    main Run.process_a = Ok (wb_a, w_a) ∧
    main Run.process_b = Ok (wb_b, w_b) ∧
    sheet_Promoter wb_a ≠ sheet_Promoter wb_b.
Proof.
  destruct (main_returns Run.process_a) as (wb_a & w_a & Ha).
  destruct (main_returns Run.process_b) as (wb_b & w_b & Hb).
  exists wb_a, wb_b, w_a, w_b. split_and!; [done|done|].
  eapply main_output_depends_on_faker; [|exact Ha|exact Hb].
  vm_compute. discriminate.
Qed.

(** * Concrete instances *)

(** The scripted run of [generate_sampling_facts]: two events, the first of
    type "ST5" with target 200, the second of type "ST2" with target 100 and
    10 passengers. *)
Lemma events_run :
  generate_sampling_facts Demo.areas Demo.promoters Demo.types
    Demo.institutions Demo.brands 2 1000 Run.events_world
  = Ok (Run.events, Run.events_world').
Proof. vm_compute. reflexivity. Defined.

Lemma respondents_run :
  generate_respondents Run.events Demo.areas (age_ranges define_lookup_data)
    Demo.brands (reasons define_lookup_data) 1000 Run.events_world'
  = Ok (Run.respondents, Run.respondents_world').
Proof. vm_compute. reflexivity. Defined.

Lemma main_run : main Run.process_a = Ok (Run.workbook_a, Run.process_a').
Proof. vm_compute. reflexivity. Defined.

(** C1: the bound of the claim fails on the scripted run, whose first event
    has target 200. *)
Lemma target_can_exceed_199 :
  generate_sampling_facts Demo.areas Demo.promoters Demo.types
    Demo.institutions Demo.brands 2 1000 Run.events_world
  = Ok (Run.events, Run.events_world') ∧
  ¬ Forall (λ e, 100 ≤ SamplingFact.target e ≤ 199) Run.events.
Proof.
  split; [exact events_run|]. intros Hall.
  apply Forall_cons in Hall as [Hfirst _]. simpl in Hfirst. lia.
Qed.

Lemma sampling_target_witness :
  generate_sampling_facts Demo.areas Demo.promoters Demo.types
    Demo.institutions Demo.brands 2 1000 Run.events_world
  = Ok (Run.events, Run.events_world') ∧
  Forall (λ e, 100 ≤ SamplingFact.target e ≤ 200) Run.events.
Proof.
  split; [exact events_run|].
  exact (sampling_target_between_100_and_200 _ _ _ _ _ _ _ _ _ _ events_run).
Defined.

Lemma optional_fields_witness :
  generate_sampling_facts Demo.areas Demo.promoters Demo.types
    Demo.institutions Demo.brands 2 1000 Run.events_world
  = Ok (Run.events, Run.events_world') ∧
  Forall (λ e,
            (is_Some (SamplingFact.institutionType e)
               ↔ SamplingFact.samplingType e = "ST5") ∧
            (is_Some (SamplingFact.passengers e)
               ↔ SamplingFact.samplingType e = "ST2")) Run.events.
Proof.
  split; [exact events_run|].
  exact (optional_fields_follow_sampling_type _ _ _ _ _ _ _ _ _ _ events_run).
Defined.

Lemma end_date_witness :
  generate_sampling_facts Demo.areas Demo.promoters Demo.types
    Demo.institutions Demo.brands 2 1000 Run.events_world
  = Ok (Run.events, Run.events_world') ∧
  Forall (λ e, SamplingFact.endDate e = SamplingFact.startDate e + 30) Run.events.
Proof.
  split; [exact events_run|].
  exact (end_date_is_start_date_plus_30 _ _ _ _ _ _ _ _ _ _ events_run).
Defined.

(** C9: the bound of the claim fails on the scripted run, whose second event
    carries 10 passengers. *)
Lemma passengers_can_exceed_9 :
  generate_sampling_facts Demo.areas Demo.promoters Demo.types
    Demo.institutions Demo.brands 2 1000 Run.events_world
  = Ok (Run.events, Run.events_world') ∧
  ¬ Forall (λ e, ∀ n, SamplingFact.passengers e = Some n → 5 ≤ n ≤ 9)
      Run.events.
Proof.
  split; [exact events_run|]. intros Hall.
  apply Forall_cons in Hall as [_ Hrest].
  apply Forall_cons in Hrest as [Hsecond _].
  specialize (Hsecond 10 eq_refl). lia.
Qed.

Lemma passengers_witness :
  generate_sampling_facts Demo.areas Demo.promoters Demo.types
    Demo.institutions Demo.brands 2 1000 Run.events_world
  = Ok (Run.events, Run.events_world') ∧
  Forall (λ e, ∀ n, SamplingFact.passengers e = Some n → 5 ≤ n ≤ 10)
    Run.events.
Proof.
  split; [exact events_run|].
  exact (passengers_between_5_and_10 _ _ _ _ _ _ _ _ _ _ events_run).
Defined.

Lemma batch_size_draw_witness :
  generate_sampling_facts Demo.areas Demo.promoters Demo.types
    Demo.institutions Demo.brands 2 1000 Run.events_world
  = Ok (Run.events, Run.events_world') ∧
  Forall (λ e,
            100 ≤ SamplingFact.target e ∧
            ∀ w1 : World Demo.tape Demo.tape Demo.fake_state, ∃ actual w2,
              randint 100 (SamplingFact.target e) w1 = Ok (actual, w2) ∧
              100 ≤ actual ≤ SamplingFact.target e) Run.events ∧
  returns (generate_respondents Run.events Demo.areas
             (age_ranges define_lookup_data) Demo.brands
             (reasons define_lookup_data) 1000
           : M Demo.tape Demo.tape Demo.fake_state _).
Proof.
  split; [exact events_run|].
  destruct (batch_size_draw_never_raises _ _ _ _ _ _ _ _ _ _ events_run)
    as [Hdraws Hreturns].
  split; [exact Hdraws|]. apply Hreturns; discriminate.
Defined.

Lemma respondent_batch_size_witness :
  generate_respondents Run.events Demo.areas (age_ranges define_lookup_data)
    Demo.brands (reasons define_lookup_data) 1000 Run.events_world'
  = Ok (Run.respondents, Run.respondents_world') ∧
  ∃ batches,
    Run.respondents = concat batches ∧
    Forall2 (λ e batch,
               Forall (λ r, Respondent.samplingID r = SamplingFact.samplingID e)
                      batch ∧
               100 ≤ Z.of_nat (length batch) ≤ SamplingFact.target e)
            Run.events batches.
Proof.
  split; [exact respondents_run|].
  exact (respondent_batch_size_in_range _ _ _ _ _ _ _ _ _ respondents_run).
Defined.

Lemma submission_date_witness :
  generate_respondents Run.events Demo.areas (age_ranges define_lookup_data)
    Demo.brands (reasons define_lookup_data) 1000 Run.events_world'
  = Ok (Run.respondents, Run.respondents_world') ∧
  Forall (λ r, ∃ e, e ∈ Run.events ∧
                    Respondent.samplingID r = SamplingFact.samplingID e ∧
                    SamplingFact.startDate e ≤ Respondent.dateOfSubmistion r
                      ≤ SamplingFact.endDate e) Run.respondents.
Proof.
  split; [exact respondents_run|].
  exact (submission_date_within_event_range _ _ _ _ _ _ _ _ _ respondents_run).
Defined.

Lemma main_foreign_keys_witness :
  main Run.process_a = Ok (Run.workbook_a, Run.process_a') ∧
  Forall (λ e,
            SamplingFact.areaID e ∈ Area.areaID <$> sheet_Area Run.workbook_a ∧
            SamplingFact.promoterID e
              ∈ Promoter.promoterID <$> sheet_Promoter Run.workbook_a ∧
            SamplingFact.samplingType e
              ∈ SamplingTypeDF.index (sheet_SamplingType Run.workbook_a))
         (sheet_SamplingFact Run.workbook_a) ∧
  Forall (λ r,
            Respondent.samplingID r
              ∈ SamplingFact.samplingID <$> sheet_SamplingFact Run.workbook_a ∧
            Respondent.areaID r ∈ Area.areaID <$> sheet_Area Run.workbook_a)
         (sheet_Respondents Run.workbook_a).
Proof.
  split; [exact main_run|].
  exact (main_foreign_keys_resolve _ _ _ main_run).
Defined.

(** * Further properties of the generators *)

(** ** Identifiers and table sizes *)

Lemma prefix_pretty_inj (prefix : string) :
  Inj (=) (=) (λ i : Z, prefix +:+ pretty i).
Proof.
  intros i j. induction prefix as [|c prefix IH]; simpl.
  - apply (inj pretty).
  - intros [= Hij]. by apply IH.
Qed.

Lemma numbered_ids (prefix : string) (start_id n : Z) :
  (λ i, prefix +:+ pretty (start_id + i)) <$> range n
  = (λ i, prefix +:+ pretty i) <$> seqZ start_id n.
Proof.
  unfold range.
  replace (seqZ start_id n) with (Z.add start_id <$> seqZ 0 n)
    by (rewrite fmap_add_seqZ; f_equal; lia).
  by rewrite <- list_fmap_compose.
Qed.

Lemma numbered_ids_NoDup (prefix : string) (start_id n : Z) :
  NoDup ((λ i, prefix +:+ pretty i) <$> seqZ start_id n).
Proof.
  apply NoDup_fmap_2_strong; [|apply NoDup_seqZ].
  intros i j _ _. apply prefix_pretty_inj.
Qed.

Section Identifiers.
Context {G N F : Type} `{!RandomGen G, !RandomGen N, !FakerGen F}.
Implicit Types w : World G N F.

(** Loop invariant that also observes the state of the generators. *)
Lemma for_each_inv_state {A S} (I : list A → S → World G N F → Prop)
    (body : A → S → M G N F S) :
  (∀ seen x s w s' w',
     I seen s w → body x s w = Ok (s', w') → I (seen ++ [x]) s' w') →
  ∀ xs seen s w s' w',
    I seen s w → for_each xs body s w = Ok (s', w') → I (seen ++ xs) s' w'.
Proof.
  intros Hbody xs. induction xs as [|x xs IH]; intros seen s w s' w' HI Hrun.
  - apply ret_Ok in Hrun as [-> ->]. by rewrite app_nil_r.
  - rewrite for_each_cons in Hrun.
    apply bind_Ok in Hrun as (s1 & w1 & Hx & Hrest).
    replace (seen ++ x :: xs) with ((seen ++ [x]) ++ xs)
      by (by rewrite <- app_assoc).
    eapply IH; [|exact Hrest]. eapply Hbody; eauto.
Qed.

Lemma fake_name_frame w s w' :
  fake_name w = Ok (s, w') →
  py_random w' = py_random w ∧ np_random w' = np_random w.
Proof.
  unfold fake_name. destruct (faker_name (faker w)). by intros [= _ <-].
Qed.

Lemma fake_phone_number_frame w s w' :
  fake_phone_number w = Ok (s, w') →
  py_random w' = py_random w ∧ np_random w' = np_random w.
Proof.
  unfold fake_phone_number. destruct (faker_phone_number (faker w)).
  by intros [= _ <-].
Qed.

(** X1.  [generate_promoter_data] returns one promoter per index of
    [range(num_promoters)] (none for a count of zero or less), with the
    identifiers "P{start_id}", "P{start_id + 1}", ... in order, pairwise
    distinct. *)
Theorem promoter_ids_sequential_and_distinct num_promoters start_id w ps w' :
  generate_promoter_data num_promoters start_id w = Ok (ps, w') →
  length ps = Z.to_nat num_promoters ∧
  Promoter.promoterID <$> ps
    = (λ i, "P" +:+ pretty i) <$> seqZ start_id num_promoters ∧
  NoDup (Promoter.promoterID <$> ps).
Proof.
  intros Hrun. apply generate_promoter_data_length in Hrun as Hids.
  rewrite numbered_ids in Hids. split_and!.
  - apply (f_equal length) in Hids.
    by rewrite !length_fmap, length_seqZ in Hids.
  - done.
  - rewrite Hids. apply numbered_ids_NoDup.
Qed.

(** X2.  [generate_promoter_data] draws from the [Faker] object only: it
    always returns, and the generators behind [random] and NumPy, the ones
    [initialize_faker] seeds, are in the state they were in before the call. *)
Theorem promoter_data_uses_only_faker num_promoters start_id w :
  ∃ ps w',
    generate_promoter_data num_promoters start_id w = Ok (ps, w') ∧
    py_random w' = py_random w ∧ np_random w' = np_random w.
Proof.
  destruct (generate_promoter_data_returns num_promoters start_id w)
    as (ps & w' & Hrun).
  exists ps, w'. split; [done|].
  unfold generate_promoter_data in Hrun.
  set (I := λ (_ : list Z) (_ : list Promoter.t) (w1 : World G N F),
              py_random w1 = py_random w ∧ np_random w1 = np_random w).
  change (I ([] ++ range num_promoters) ps w').
  eapply for_each_inv_state; [| |exact Hrun]; [|done].
  clear. intros seen i rows w1 rows' w1' [Hpy Hnp] Hbody. run_inv Hbody.
  apply fake_name_frame in Hm as [Hpy1 Hnp1].
  apply fake_phone_number_frame in Hm0 as [Hpy2 Hnp2].
  unfold I. split; congruence.
Qed.

(** X4.  [generate_sampling_facts] returns one event per index of
    [range(num_samples)], with the identifiers "S{start_id}",
    "S{start_id + 1}", ... in order, pairwise distinct. *)
Theorem sampling_ids_sequential_and_distinct
    (area_df : list Area.t) (promoter_df : list Promoter.t)
    (sampling_type_df : SamplingTypeDF.t)
    (institution_types toothpaste_brands : list string)
    (num_samples start_id : Z) w facts w' :
  generate_sampling_facts area_df promoter_df sampling_type_df
    institution_types toothpaste_brands num_samples start_id w = Ok (facts, w') →
  length facts = Z.to_nat num_samples ∧
  SamplingFact.samplingID <$> facts
    = (λ i, "S" +:+ pretty i) <$> seqZ start_id num_samples ∧
  NoDup (SamplingFact.samplingID <$> facts).
Proof.
  intros Hrun. apply generate_sampling_facts_rows in Hrun as [_ Hids].
  rewrite numbered_ids in Hids. split_and!.
  - apply (f_equal length) in Hids.
    by rewrite !length_fmap, length_seqZ in Hids.
  - done.
  - rewrite Hids. apply numbered_ids_NoDup.
Qed.
End Identifiers.

(** X3.  [generate_sampling_type_df] keys the labels "ST1", "ST2", ... in
    list order: there are as many keys as labels, the keys are pairwise
    distinct, and the label at position [i] (from 0) has the key
    "ST{i + 1}"; the label column is the input list. *)
Theorem sampling_type_keys (labels : list string) :
  let df := generate_sampling_type_df labels in
  SamplingTypeDF.SamplingType df = labels ∧
  length (SamplingTypeDF.index df) = length labels ∧
  NoDup (SamplingTypeDF.index df) ∧
  ∀ (i : nat) label,
    labels !! i = Some label →
    SamplingTypeDF.index df !! i = Some ("ST" +:+ pretty (Z.of_nat i + 1)).
Proof.
  cbn. split_and!.
  - done.
  - by rewrite length_fmap, length_seqZ, Nat2Z.id.
  - apply numbered_ids_NoDup.
  - intros i label Hi. apply lookup_lt_Some in Hi.
    rewrite list_lookup_fmap, lookup_seqZ_lt by lia.
    simpl. do 3 f_equal. lia.
Qed.

(** ** How the generators fail *)

Section Failures.
Context {G N F : Type} `{!RandomGen G, !RandomGen N, !FakerGen F}.
Implicit Types w : World G N F.

Lemma bind_Raise {A B} (m : M G N F A) (k : A → M G N F B) w e :
  m w = Raise e → bind m k w = Raise e.
Proof. unfold bind. by intros ->. Qed.

Lemma bind_Raise_inv {A B} (m : M G N F A) (k : A → M G N F B) w e :
  bind m k w = Raise e →
  m w = Raise e ∨ ∃ a w1, m w = Ok (a, w1) ∧ k a w1 = Raise e.
Proof.
  unfold bind. destruct (m w) as [[a w1]|e'].
  - intros Hk. right. by exists a, w1.
  - intros [= ->]. by left.
Qed.

Lemma for_each_Raise_inv {A S} (xs : list A) (body : A → S → M G N F S) s w e :
  for_each xs body s w = Raise e →
  ∃ x s0 w0, x ∈ xs ∧ body x s0 w0 = Raise e.
Proof.
  revert s w. induction xs as [|x xs IH]; intros s w Hrun; [done|].
  rewrite for_each_cons in Hrun.
  apply bind_Raise_inv in Hrun as [Hx|(s1 & w1 & _ & Hrest)].
  - exists x, s, w. split; [left|done].
  - destruct (IH _ _ Hrest) as (y & s0 & w0 & Hy & Hbody).
    exists y, s0, w0. split; [by right|done].
Qed.

Lemma returns_not_Raise {A} (m : M G N F A) w e : returns m → m w ≠ Raise e.
Proof. intros Hm Hr. destruct (Hm w) as (a & w' & Ha). congruence. Qed.

Lemma choice_Raise {A} (seq : list A) w e :
  choice seq w = Raise e → seq = [] ∧ e = IndexError.
Proof.
  intros Hr. destruct seq as [|x seq].
  - unfold choice in Hr. simpl in Hr. by injection Hr as <-.
  - exfalso. eapply returns_not_Raise; [|exact Hr]. by apply returns_choice.
Qed.

Lemma choice_nil {A} w : choice (@nil A) w = Raise IndexError.
Proof. done. Qed.

Lemma sample1_nil {A} w : sample1 (@nil A) w = Raise ValueError.
Proof. done. Qed.

Lemma range_cons n : 0 < n → range n = 0 :: seqZ 1 (n - 1).
Proof. intros Hn. unfold range. by rewrite seqZ_cons. Qed.

Variables (area_df : list Area.t) (promoter_df : list Promoter.t).
Variables (sampling_type_df : SamplingTypeDF.t).
Variables (institution_types toothpaste_brands : list string).
Variables (num_samples start_id : Z).

(** X5.  On non-empty area, promoter and sampling-type tables and non-empty
    institution and brand lists, [generate_sampling_facts] returns a table
    for every event count and every state of the generators. *)
Theorem sampling_facts_return_on_nonempty_inputs w :
  area_df ≠ [] → promoter_df ≠ [] →
  SamplingTypeDF.index sampling_type_df ≠ [] →
  institution_types ≠ [] → toothpaste_brands ≠ [] →
  ∃ facts w',
    generate_sampling_facts area_df promoter_df sampling_type_df
      institution_types toothpaste_brands num_samples start_id w
    = Ok (facts, w').
Proof.
  intros Ha Hp Ht Hi Hb.
  by apply (generate_sampling_facts_returns area_df promoter_df
              sampling_type_df institution_types toothpaste_brands
              num_samples start_id).
Qed.

(** X6.  With an event count of zero or less [generate_sampling_facts]
    returns the empty table and draws nothing, whatever the input tables,
    empty ones included. *)
Theorem sampling_facts_nothing_to_generate w :
  num_samples ≤ 0 →
  generate_sampling_facts area_df promoter_df sampling_type_df
    institution_types toothpaste_brands num_samples start_id w
  = Ok ([], w).
Proof.
  intros Hn. unfold generate_sampling_facts, range.
  by rewrite seqZ_nil.
Qed.

(** X7.  With at least one event to generate, an empty area table, or a
    non-empty area table with an empty promoter table, makes
    [generate_sampling_facts] raise [ValueError] (from [DataFrame.sample]). *)
Theorem sampling_facts_empty_table_raises_ValueError w :
  0 < num_samples →
  area_df = [] ∨ promoter_df = [] →
  generate_sampling_facts area_df promoter_df sampling_type_df
    institution_types toothpaste_brands num_samples start_id w
  = Raise ValueError.
Proof.
  intros Hn Hempty. unfold generate_sampling_facts.
  rewrite range_cons, for_each_cons by done. apply bind_Raise.
  destruct area_df as [|a areas].
  - apply bind_Raise, sample1_nil.
  - destruct Hempty as [Hareas | ->]; [done|].
    destruct (returns_sample1 (a :: areas) (G:=G) (N:=N) (F:=F)) with w
      as (x & w1 & Hx); [done|].
    rewrite (bind_total _ _ _ _ _ Hx). apply bind_Raise, sample1_nil.
Qed.

(** X8.  With at least one event to generate and non-empty area and promoter
    tables, an empty sampling-type index or an empty brand list makes
    [generate_sampling_facts] raise [IndexError] (from [random.choice]). *)
Theorem sampling_facts_empty_list_raises_IndexError w :
  0 < num_samples →
  area_df ≠ [] → promoter_df ≠ [] →
  SamplingTypeDF.index sampling_type_df = [] ∨ toothpaste_brands = [] →
  generate_sampling_facts area_df promoter_df sampling_type_df
    institution_types toothpaste_brands num_samples start_id w
  = Raise IndexError.
Proof.
  intros Hn Ha Hp Hempty. unfold generate_sampling_facts.
  rewrite range_cons, for_each_cons by done. apply bind_Raise.
  destruct (returns_sample1 area_df (G:=G) (N:=N) (F:=F) Ha w)
    as (area & w1 & Harea).
  rewrite (bind_total _ _ _ _ _ Harea).
  destruct (returns_sample1 promoter_df (G:=G) (N:=N) (F:=F) Hp w1)
    as (promoter & w2 & Hpromoter).
  rewrite (bind_total _ _ _ _ _ Hpromoter).
  destruct (choice (SamplingTypeDF.index sampling_type_df) w2)
    as [[sampling_type w3]|e] eqn:Htype.
  2: { rewrite (bind_Raise _ _ _ _ Htype).
       by apply choice_Raise in Htype as [_ ->]. }
  destruct Hempty as [Hidx|Hbrands].
  { rewrite Hidx, choice_nil in Htype. discriminate. }
  rewrite (bind_total _ _ _ _ _ Htype).
  set (inst := if decide (sampling_type = "ST5")
               then x <- choice institution_types ;; ret (Some x)
               else ret None).
  destruct (inst w3) as [[institution_type w4]|e] eqn:Hinst.
  2: { rewrite (bind_Raise _ _ _ _ Hinst). subst inst.
       destruct (decide (sampling_type = "ST5")); [|discriminate].
       apply bind_Raise_inv in Hinst as [Hc|(x & w' & _ & Hret)];
         [|discriminate].
       by apply choice_Raise in Hc as [_ ->]. }
  rewrite (bind_total _ _ _ _ _ Hinst).
  destruct (returns_randint (G:=G) (N:=N) (F:=F) 100 200 ltac:(lia) w4)
    as (target & w5 & Htarget).
  rewrite (bind_total _ _ _ _ _ Htarget).
  set (pass := if decide (sampling_type = "ST2")
               then n <- randint 5 10 ;; ret (Some n)
               else ret None).
  assert (returns (pass : M G N F _)) as Hpass.
  { subst pass. case_decide; [|apply returns_ret].
    apply returns_bind; [by apply returns_randint|intros; apply returns_ret]. }
  destruct (Hpass w5) as (passengers & w6 & Hp6).
  rewrite (bind_total _ _ _ _ _ Hp6).
  destruct (returns_fake_date_between (G:=G) (N:=N) (F:=F) "-1y" "today" w6)
    as (start_date & w7 & Hdate).
  rewrite (bind_total _ _ _ _ _ Hdate).
  apply bind_Raise. by rewrite Hbrands.
Qed.

(** X9.  For any input tables, each event produced by
    [generate_sampling_facts] takes its area identifier from a row of the
    area table, its promoter identifier from a row of the promoter table, its
    sampling type from the index of the sampling-type table, its brand from
    the brand list and its institution type, when set, from the institution
    list. *)
Theorem sampling_fields_come_from_inputs w facts w' :
  generate_sampling_facts area_df promoter_df sampling_type_df
    institution_types toothpaste_brands num_samples start_id w = Ok (facts, w') →
  Forall (λ e,
            SamplingFact.areaID e ∈ Area.areaID <$> area_df ∧
            SamplingFact.promoterID e ∈ Promoter.promoterID <$> promoter_df ∧
            SamplingFact.samplingType e ∈ SamplingTypeDF.index sampling_type_df ∧
            SamplingFact.toothpasteBrand e ∈ toothpaste_brands ∧
            ∀ x, SamplingFact.institutionType e = Some x →
                 x ∈ institution_types) facts.
Proof.
  intros Hrun. apply generate_sampling_facts_rows in Hrun as [Hrows _].
  apply (Forall_impl _ _ _ Hrows).
  intros e (Ha & Hp & Ht & Hinst & _ & _ & _ & Hb). split_and!; try done.
  intros x Hx. destruct (decide (SamplingFact.samplingType e = "ST5")).
  - destruct Hinst as (y & Hy & Heq). congruence.
  - congruence.
Qed.
End Failures.

(** ** The respondent table as a whole *)

Section RespondentTable.
Context {G N F : Type} `{!RandomGen G, !RandomGen N, !FakerGen F}.
Implicit Types w : World G N F.

Variables (area_df : list Area.t).
Variables (age_ranges toothpaste_brands reasons : list string).

Lemma respondent_record_fields sampling rid w r w' :
  respondent_record sampling area_df age_ranges toothpaste_brands reasons rid w
    = Ok (r, w') →
  Respondent.respondentID r = "R" +:+ pretty rid ∧
  respondent_fields_ok area_df age_ranges toothpaste_brands reasons sampling r.
Proof.
  unfold respondent_record. intros Hrun. run_inv Hrun. use_prims.
  unfold respondent_fields_ok. cbn. split_and!; done.
Qed.

Local Abbreviation table_ok :=
  (respondent_table_ok area_df age_ranges toothpaste_brands reasons).

Lemma table_ok_append start_id seen e rs n w acc' w' :
  e ∈ seen →
  table_ok start_id seen (rs, n) →
  respondent_append e area_df age_ranges toothpaste_brands reasons 0 (rs, n) w
    = Ok (acc', w') →
  table_ok start_id seen acc'.
Proof.
  intros He (Hn & Hids & Hrows) Hrun. simpl in Hn, Hids, Hrows.
  unfold respondent_append in Hrun.
  apply bind_Ok in Hrun as (r & w1 & Hr & Hret).
  apply ret_Ok in Hret as [-> _].
  apply respondent_record_fields in Hr as [Hid Hfields].
  unfold respondent_table_ok. cbn [fst snd]. rewrite length_app. cbn [length].
  split_and!.
  - lia.
  - rewrite fmap_app, Hids. cbn [fmap list_fmap]. rewrite Hid, Hn.
    replace (Z.of_nat (length rs + 1)) with (Z.of_nat (length rs) + 1) by lia.
    rewrite seqZ_app by lia. by rewrite fmap_app.
  - apply Forall_app. split; [done|]. apply Forall_singleton. by exists e.
Qed.

Lemma generate_respondents_table facts start_id w respondents w' :
  generate_respondents facts area_df age_ranges toothpaste_brands reasons
    start_id w = Ok (respondents, w') →
  Respondent.respondentID <$> respondents
    = (λ i, "R" +:+ pretty i)
        <$> seqZ start_id (Z.of_nat (length respondents)) ∧
  Forall (λ r, ∃ e, e ∈ facts ∧
                    respondent_fields_ok area_df age_ranges toothpaste_brands
                      reasons e r) respondents.
Proof.
  unfold generate_respondents. intros Hrun.
  apply bind_Ok in Hrun as ([rs n] & w1 & Hloop & Hret).
  apply ret_Ok in Hret as [-> _]. cbn [fst].
  assert (table_ok start_id ([] ++ facts) (rs, n)) as (_ & Hids & Hrows).
  { eapply (for_each_inv (table_ok start_id)); [| |exact Hloop].
    - clear. intros seen e acc w acc' w' Hacc Hbody.
      unfold respondent_batch in Hbody.
      apply bind_Ok in Hbody as (actual & w1 & _ & Hinner).
      assert (table_ok start_id (seen ++ [e]) acc) as Hacc1.
      { destruct Hacc as (Hn & Hids & Hrows). split_and!; [done|done|].
        apply (Forall_impl _ _ _ Hrows). intros r (e' & He' & Hr).
        exists e'. split; [|done]. apply elem_of_app. by left. }
      eapply (for_each_inv (λ _, table_ok start_id (seen ++ [e])))
        with (seen := []); [| |exact Hinner]; [|done].
      clear. intros _ i [rs n] w acc' w' Hacc Hbody.
      eapply table_ok_append; [|exact Hacc|exact Hbody].
      apply elem_of_app. right. left.
    - split_and!; [simpl; lia|done|constructor]. }
  done.
Qed.

(** X10.  The respondents of the table produced by [generate_respondents]
    are numbered "R{start_id}", "R{start_id + 1}", ... in table order, across
    all events, so respondent identifiers are pairwise distinct. *)
Theorem respondent_ids_sequential_and_distinct facts start_id w respondents w' :
  generate_respondents facts area_df age_ranges toothpaste_brands reasons
    start_id w = Ok (respondents, w') →
  Respondent.respondentID <$> respondents
    = (λ i, "R" +:+ pretty i)
        <$> seqZ start_id (Z.of_nat (length respondents)) ∧
  NoDup (Respondent.respondentID <$> respondents).
Proof.
  intros Hrun. apply generate_respondents_table in Hrun as [Hids _].
  split; [done|]. rewrite Hids. apply numbered_ids_NoDup.
Qed.

(** X11.  Every respondent produced by [generate_respondents] belongs to an
    event of the input table whose identifier, brand and area it copies; its
    age range, preferred brand and reason are members of the lists passed in,
    its residence area is the name of a row of the area table, and its opt-in
    flag is "Yes" or "No". *)
Theorem respondent_fields_come_from_inputs facts start_id w respondents w' :
  generate_respondents facts area_df age_ranges toothpaste_brands reasons
    start_id w = Ok (respondents, w') →
  Forall (λ r, ∃ e,
            e ∈ facts ∧
            Respondent.samplingID r = SamplingFact.samplingID e ∧
            Respondent.toothpasteBrand r = SamplingFact.toothpasteBrand e ∧
            Respondent.areaID r = SamplingFact.areaID e ∧
            Respondent.ageRange r ∈ age_ranges ∧
            Respondent.perferredBrand r ∈ toothpaste_brands ∧
            Respondent.residenceArea r ∈ Area.AreaName <$> area_df ∧
            Respondent.reason r ∈ reasons ∧
            (Respondent.optInOtherProducts r = "Yes" ∨
             Respondent.optInOtherProducts r = "No")) respondents.
Proof.
  intros Hrun. apply generate_respondents_table in Hrun as [_ Hrows].
  apply (Forall_impl _ _ _ Hrows).
  intros r (e & He & Hs & Hb & Ha & Hage & Hpref & Hres & Hreason & Hopt).
  exists e. split_and!; try done.
  apply elem_of_cons in Hopt as [Hyes|Hno]; [by left|right].
  by apply list_elem_of_singleton in Hno.
Qed.
End RespondentTable.

(** ** Respondent counts *)

Section RespondentCounts.
Context {G N F : Type} `{!RandomGen G, !RandomGen N, !FakerGen F}.
Implicit Types w : World G N F.

Variables (area_df : list Area.t).
Variables (age_ranges toothpaste_brands reasons : list string).

Lemma filter_all {A} (P : A → Prop) `{!∀ x, Decision (P x)} (l : list A) :
  Forall P l → filter P l = l.
Proof.
  induction 1 as [|x l Hx _ IH]; [done|].
  by rewrite filter_cons_True, IH.
Qed.

Lemma filter_none {A} (P : A → Prop) `{!∀ x, Decision (P x)} (l : list A) :
  Forall (λ x, ¬ P x) l → filter P l = [].
Proof.
  induction 1 as [|x l Hx _ IH]; [done|].
  by rewrite filter_cons_False.
Qed.

Lemma batches_total_size facts (batches : list (list Respondent.t)) :
  Forall2 (batch_ok area_df) facts batches →
  100 * Z.of_nat (length facts) ≤ Z.of_nat (length (concat batches))
    ≤ total_target facts.
Proof.
  induction 1 as [|e batch es bs [Hsize _] _ IH]; [done|].
  cbn [concat length total_target foldr]. rewrite length_app.
  fold (total_target es). lia.
Qed.

Lemma batches_reference_events facts (batches : list (list Respondent.t)) :
  Forall2 (batch_ok area_df) facts batches →
  Forall (λ r, Respondent.samplingID r ∈ SamplingFact.samplingID <$> facts)
         (concat batches).
Proof.
  induction 1 as [|e batch es bs [_ Hrows] _ IH]; [constructor|].
  cbn [concat]. apply Forall_app. split.
  - apply (Forall_impl _ _ _ Hrows). intros r [-> _]. left.
  - apply (Forall_impl _ _ _ IH). intros r Hr. by right.
Qed.

Lemma batches_group_by facts (batches : list (list Respondent.t)) :
  Forall2 (batch_ok area_df) facts batches →
  NoDup (SamplingFact.samplingID <$> facts) →
  Forall (λ e,
            ∃ batch,
              batch_ok area_df e batch ∧
              filter (λ r, Respondent.samplingID r = SamplingFact.samplingID e)
                     (concat batches) = batch) facts.
Proof.
  induction 1 as [|e batch es bs Hbatch Hrest IH]; [constructor|].
  rewrite fmap_cons. intros [Hfresh Hnodup]%NoDup_cons.
  pose proof (batches_reference_events _ _ Hrest) as Hrefs.
  constructor.
  - exists batch. split; [done|]. cbn [concat]. rewrite filter_app.
    rewrite filter_all, filter_none; [by rewrite app_nil_r| |].
    + apply (Forall_impl _ _ _ Hrefs). intros r Hr Heq. congruence.
    + destruct Hbatch as [_ Hrows].
      apply (Forall_impl _ _ _ Hrows). intros r Hr. apply Hr.
  - specialize (IH Hnodup). rewrite Forall_forall in IH.
    apply Forall_forall. intros e' He'.
    destruct (IH e' He') as (batch' & Hok & Hfilter).
    exists batch'. split; [done|]. cbn [concat]. rewrite filter_app.
    rewrite filter_none; [done|].
    destruct Hbatch as [_ Hrows].
    apply (Forall_impl _ _ _ Hrows). intros r [Hr _] Heq.
    apply Hfresh. rewrite <- Hr, Heq. by apply list_elem_of_fmap_2.
Qed.

(** X12.  The table produced by [generate_respondents] holds at least 100
    respondents per event of the input table and at most as many as the
    targets of the events add up to. *)
Theorem respondent_count_bounds facts start_id w respondents w' :
  generate_respondents facts area_df age_ranges toothpaste_brands reasons
    start_id w = Ok (respondents, w') →
  100 * Z.of_nat (length facts) ≤ Z.of_nat (length respondents)
    ≤ total_target facts.
Proof.
  intros Hrun. apply generate_respondents_batches in Hrun as (batches & -> & Hok).
  by apply batches_total_size.
Qed.

(** X13.  When the events of the input table have pairwise distinct
    identifiers (as the tables of [generate_sampling_facts] do), grouping the
    respondents produced by [generate_respondents] by their [samplingID]
    gives, for every event, a group of at least 100 and at most [target]
    respondents whose submission dates lie in the event's date range. *)
Theorem respondents_grouped_by_event facts start_id w respondents w' :
  NoDup (SamplingFact.samplingID <$> facts) →
  generate_respondents facts area_df age_ranges toothpaste_brands reasons
    start_id w = Ok (respondents, w') →
  Forall (λ e,
            let group :=
              filter (λ r, Respondent.samplingID r = SamplingFact.samplingID e)
                     respondents in
            100 ≤ Z.of_nat (length group) ≤ SamplingFact.target e ∧
            Forall (λ r, SamplingFact.startDate e
                           ≤ Respondent.dateOfSubmistion r
                           ≤ SamplingFact.endDate e) group) facts.
Proof.
  intros Hnodup Hrun.
  apply generate_respondents_batches in Hrun as (batches & -> & Hok).
  apply (Forall_impl _ _ _ (batches_group_by _ _ Hok Hnodup)).
  intros e (batch & [Hsize Hrows] & ->). cbv zeta. split; [done|].
  apply (Forall_impl _ _ _ Hrows). intros r Hr. apply Hr.
Qed.
End RespondentCounts.

(** ** When the respondent generator returns *)

Section RespondentFailures.
Context {G N F : Type} `{!RandomGen G, !RandomGen N, !FakerGen F}.
Implicit Types w : World G N F.

Variables (area_df : list Area.t).
Variables (age_ranges toothpaste_brands reasons : list string).

Lemma respondent_append_returns sampling i acc :
  SamplingFact.startDate sampling ≤ SamplingFact.endDate sampling →
  area_df ≠ [] → age_ranges ≠ [] → toothpaste_brands ≠ [] → reasons ≠ [] →
  returns (respondent_append sampling area_df age_ranges toothpaste_brands
             reasons i acc : M G N F _).
Proof.
  intros Hdates Harea Ha Hb Hr. destruct acc as [rs n].
  unfold respondent_append, respondent_record.
  repeat (apply returns_bind; [|intros ?]); try apply returns_ret;
    try apply returns_fake_name; try apply returns_fake_phone_number;
    try (by apply returns_choice).
  - apply returns_sample1. by destruct area_df.
  - apply returns_choice. unfold date_range.
    rewrite seqZ_cons by lia. done.
Qed.

Lemma generate_respondents_nil start_id w :
  generate_respondents [] area_df age_ranges toothpaste_brands reasons
    start_id w = Ok ([], w).
Proof. done. Qed.

(** Nothing but the first respondent of a table is needed to see that the
    inputs it was drawn from are non-empty. *)
Lemma inputs_nonempty facts start_id w respondents w' r :
  generate_respondents facts area_df age_ranges toothpaste_brands reasons
    start_id w = Ok (respondents, w') →
  r ∈ respondents →
  area_df ≠ [] ∧ age_ranges ≠ [] ∧ toothpaste_brands ≠ [] ∧ reasons ≠ [].
Proof.
  intros Hrun Hr. apply generate_respondents_table in Hrun as [_ Hrows].
  rewrite Forall_forall in Hrows.
  destruct (Hrows r Hr) as (e & _ & _ & _ & _ & Hage & Hpref & Hres & Hreason & _).
  split_and!; intros Heq; rewrite Heq in *;
    match goal with H : _ ∈ _ |- _ => by inversion H end.
Qed.

(** X14.  [generate_respondents] returns a table exactly when the event
    table is empty, or every event has a target of at least 100 and a start
    date not after its end date while the area table and the age-range, brand
    and reason lists are non-empty. *)
Theorem generate_respondents_returns_iff facts start_id w :
  (∃ respondents w',
     generate_respondents facts area_df age_ranges toothpaste_brands reasons
       start_id w = Ok (respondents, w'))
  ↔ facts = [] ∨
    (Forall (λ e, 100 ≤ SamplingFact.target e ∧
                  SamplingFact.startDate e ≤ SamplingFact.endDate e) facts ∧
     area_df ≠ [] ∧ age_ranges ≠ [] ∧ toothpaste_brands ≠ [] ∧ reasons ≠ []).
Proof.
  split.
  - intros (respondents & w' & Hrun).
    destruct facts as [|e0 es] eqn:Hfacts; [by left|right]. rewrite <- Hfacts in *.
    pose proof Hrun as Hrun'.
    apply generate_respondents_batches in Hrun' as (batches & Hconcat & Hok).
    assert (Forall (λ e, 100 ≤ SamplingFact.target e ∧
                         SamplingFact.startDate e ≤ SamplingFact.endDate e)
                   facts) as Hevents.
    { clear -Hok. induction Hok as [|e batch es bs [Hsize Hrows] _ IH];
        constructor; [|done].
      split; [lia|]. destruct batch as [|r batch]; [simpl in Hsize; lia|].
      apply Forall_cons in Hrows as [(_ & _ & _ & _ & Hdate) _]. lia. }
    split; [done|].
    assert (∃ r, r ∈ respondents) as [r Hr].
    { rewrite Hfacts in Hok. inversion Hok as [|? batch ? bs [Hsize _] _]; subst.
      destruct batch as [|r batch]; [simpl in Hsize; lia|].
      exists r. left. }
    by eapply inputs_nonempty.
  - intros [->|(Hevents & Harea & Ha & Hb & Hr)].
    + exists [], w. apply generate_respondents_nil.
    + apply generate_respondents_returns; auto.
Qed.

(** X15.  On inputs that are otherwise fit (every event's start date not
    after its end date, non-empty area table and option lists), the only way
    [generate_respondents] fails is the batch-size draw: it raises
    [ValueError], and then some event of the table has a target below 100. *)
Theorem generate_respondents_only_failure facts start_id w e :
  Forall (λ ev, SamplingFact.startDate ev ≤ SamplingFact.endDate ev) facts →
  area_df ≠ [] → age_ranges ≠ [] → toothpaste_brands ≠ [] → reasons ≠ [] →
  generate_respondents facts area_df age_ranges toothpaste_brands reasons
    start_id w = Raise e →
  e = ValueError ∧ Exists (λ ev, SamplingFact.target ev < 100) facts.
Proof.
  intros Hdates Harea Ha Hb Hr Hrun. unfold generate_respondents in Hrun.
  apply bind_Raise_inv in Hrun as [Hloop|(acc & w1 & _ & Hret)]; [|done].
  apply for_each_Raise_inv in Hloop as (ev & acc & w0 & Hev & Hbody).
  unfold respondent_batch in Hbody.
  apply bind_Raise_inv in Hbody as [Hdraw|(actual & w1 & _ & Hinner)].
  - apply randint_Raise in Hdraw as [Hlt ->]. split; [done|].
    apply Exists_exists. by exists ev.
  - exfalso. eapply returns_not_Raise; [|exact Hinner].
    apply returns_for_each. intros i acc' _.
    apply respondent_append_returns; try done.
    rewrite Forall_forall in Hdates. by apply Hdates.
Qed.

(** X16.  An event table whose first event has a target below 100 makes
    [generate_respondents] raise [ValueError] before any respondent is
    generated, whatever the other inputs. *)
Theorem generate_respondents_low_target_raises ev facts start_id w :
  SamplingFact.target ev < 100 →
  generate_respondents (ev :: facts) area_df age_ranges toothpaste_brands
    reasons start_id w = Raise ValueError.
Proof.
  intros Hlow. unfold generate_respondents.
  apply bind_Raise. rewrite for_each_cons. apply bind_Raise.
  unfold respondent_batch. apply bind_Raise.
  unfold randint. by rewrite decide_False by lia.
Qed.
End RespondentFailures.

(** ** The workbook of [main] *)

Section Workbook.
Context {G N F : Type} `{!RandomGen G, !RandomGen N, !FakerGen F}.
Implicit Types w : World G N F.

Lemma total_target_le area_df promoter_df sampling_type_df institution_types
    toothpaste_brands (facts : list SamplingFact.t) :
  Forall (event_ok area_df promoter_df sampling_type_df institution_types
            toothpaste_brands) facts →
  total_target facts ≤ 200 * Z.of_nat (length facts).
Proof.
  induction 1 as [|e es (_ & _ & _ & _ & Ht & _) _ IH]; [done|].
  cbn [total_target foldr length]. fold (total_target es). lia.
Qed.

(** X18.  Whatever the generators draw, the workbook of [main] has 20 areas,
    the promoters P1000 to P1004, the sampling types ST1 to ST5, the events
    S1000 to S1005, and between 600 and 1200 respondents, numbered from R1000
    without gaps. *)
Theorem main_table_sizes w wb w' :
  main w = Ok (wb, w') →
  length (sheet_Area wb) = 20%nat ∧
  Promoter.promoterID <$> sheet_Promoter wb
    = ["P1000"; "P1001"; "P1002"; "P1003"; "P1004"] ∧
  SamplingTypeDF.index (sheet_SamplingType wb)
    = ["ST1"; "ST2"; "ST3"; "ST4"; "ST5"] ∧
  SamplingFact.samplingID <$> sheet_SamplingFact wb
    = ["S1000"; "S1001"; "S1002"; "S1003"; "S1004"; "S1005"] ∧
  600 ≤ Z.of_nat (length (sheet_Respondents wb)) ≤ 1200 ∧
  Respondent.respondentID <$> sheet_Respondents wb
    = (λ i, "R" +:+ pretty i)
        <$> seqZ 1000 (Z.of_nat (length (sheet_Respondents wb))).
Proof.
  intros Hrun.
  apply main_inv in Hrun as (w0 & w1 & w2 & _ & Hps & Hfacts & Hresp & -> & ->).
  apply generate_promoter_data_length in Hps.
  apply generate_sampling_facts_rows in Hfacts as [Hrows Hids].
  pose proof Hresp as Hbatches.
  apply generate_respondents_batches in Hbatches as (batches & Hconcat & Hok).
  apply batches_total_size in Hok as Hcount. rewrite <- Hconcat in Hcount.
  apply generate_respondents_table in Hresp as [Hrids _].
  pose proof (total_target_le _ _ _ _ _ _ Hrows) as Htotal.
  assert (length (sheet_SamplingFact wb) = 6%nat) as Hlen.
  { apply (f_equal length) in Hids. by rewrite !length_fmap in Hids. }
  rewrite Hlen in Hcount, Htotal.
  split_and!; [done|exact Hps|done|exact Hids|lia|lia|exact Hrids].
Qed.
End Workbook.

(** ** What the seed does reproduce *)

Section Reproducibility.
Context {G N F : Type} `{!RandomGen G, !RandomGen N, !FakerGen F}.
Implicit Types w : World G N F.

Lemma agree_ret {A B} (R : A → B → Prop) a b w1 w2 :
  R a b → same_seeded w1 w2 → agree R (ret a w1) (ret b w2).
Proof. by split. Qed.

Lemma agree_bind {A1 A2 B1 B2} (R : A1 → A2 → Prop) (Q : B1 → B2 → Prop)
    (m1 : M G N F A1) (m2 : M G N F A2) k1 k2 w1 w2 :
  agree R (m1 w1) (m2 w2) →
  (∀ a b w1' w2', R a b → same_seeded w1' w2' → agree Q (k1 a w1') (k2 b w2')) →
  agree Q (bind m1 k1 w1) (bind m2 k2 w2).
Proof.
  unfold agree at 1, bind.
  destruct (m1 w1) as [[a w1']|e1], (m2 w2) as [[b w2']|e2]; try done.
  intros [HR Hw] Hk. by apply Hk.
Qed.

Lemma agree_for_each {X Y S1 S2} (RX : X → Y → Prop) (RS : S1 → S2 → Prop)
    (body1 : X → S1 → M G N F S1) (body2 : Y → S2 → M G N F S2) xs ys :
  Forall2 RX xs ys →
  (∀ x y s1 s2 w1 w2,
     RX x y → RS s1 s2 → same_seeded w1 w2 →
     agree RS (body1 x s1 w1) (body2 y s2 w2)) →
  ∀ s1 s2 w1 w2,
    RS s1 s2 → same_seeded w1 w2 →
    agree RS (for_each xs body1 s1 w1) (for_each ys body2 s2 w2).
Proof.
  intros Hxs Hbody. induction Hxs as [|x y xs ys Hxy _ IH]; intros s1 s2 w1 w2 Hs Hw.
  - by apply agree_ret.
  - rewrite !for_each_cons. eapply agree_bind; [by apply Hbody|].
    intros s1' s2' w1' w2' Hs' Hw'. by apply IH.
Qed.

Lemma agree_randint a b w1 w2 :
  same_seeded w1 w2 → agree eq (randint a b w1) (randint a b w2).
Proof.
  intros [Hpy Hnp]. unfold randint. rewrite Hpy. case_decide; [|done].
  destruct (randbelow _ (py_random w2)) as [k g]. by repeat split.
Qed.

Lemma agree_choice {A B} (R : A → B → Prop) (seq1 : list A) (seq2 : list B) w1 w2 :
  Forall2 R seq1 seq2 → same_seeded w1 w2 →
  agree R (choice seq1 w1) (choice seq2 w2).
Proof.
  intros Hseq [Hpy Hnp]. unfold choice.
  rewrite <- (Forall2_length _ _ _ Hseq), Hpy.
  case_decide; [done|].
  destruct (randbelow _ (py_random w2)) as [k g].
  destruct (seq1 !! Z.to_nat k) as [x|] eqn:Hx.
  - destruct (Forall2_lookup_l _ _ _ _ _ Hseq Hx) as (y & -> & Hxy).
    by repeat split.
  - apply lookup_ge_None in Hx. rewrite (Forall2_length _ _ _ Hseq) in Hx.
    apply lookup_ge_None in Hx. by rewrite Hx.
Qed.

Lemma agree_sample1 {A B} (R : A → B → Prop) (df1 : list A) (df2 : list B) w1 w2 :
  Forall2 R df1 df2 → same_seeded w1 w2 →
  agree R (sample1 df1 w1) (sample1 df2 w2).
Proof.
  intros Hdf [Hpy Hnp]. unfold sample1.
  rewrite <- (Forall2_length _ _ _ Hdf), Hnp.
  case_decide; [done|].
  destruct (randbelow _ (np_random w2)) as [k g].
  destruct (df1 !! Z.to_nat k) as [x|] eqn:Hx.
  - destruct (Forall2_lookup_l _ _ _ _ _ Hdf Hx) as (y & -> & Hxy).
    by repeat split.
  - apply lookup_ge_None in Hx. rewrite (Forall2_length _ _ _ Hdf) in Hx.
    apply lookup_ge_None in Hx. by rewrite Hx.
Qed.

Lemma agree_fake_name w1 w2 :
  same_seeded w1 w2 → agree (λ _ _, True) (fake_name w1) (fake_name w2).
Proof.
  intros Hw. unfold fake_name.
  destruct (faker_name (faker w1)), (faker_name (faker w2)). by split.
Qed.

Lemma agree_fake_phone_number w1 w2 :
  same_seeded w1 w2 →
  agree (λ _ _, True) (fake_phone_number w1) (fake_phone_number w2).
Proof.
  intros Hw. unfold fake_phone_number.
  destruct (faker_phone_number (faker w1)), (faker_phone_number (faker w2)).
  by split.
Qed.

Lemma agree_fake_date_between a b w1 w2 :
  same_seeded w1 w2 →
  agree (λ _ _, True) (fake_date_between a b w1) (fake_date_between a b w2).
Proof.
  intros Hw. unfold fake_date_between.
  destruct (faker_date_between a b (faker w1)),
           (faker_date_between a b (faker w2)). by split.
Qed.

Lemma Forall2_same {A} (l : list A) : Forall2 eq l l.
Proof. induction l; by constructor. Qed.

Lemma agree_promoter_data num_promoters start_id w1 w2 :
  same_seeded w1 w2 →
  agree (Forall2 (λ p q, Promoter.promoterID p = Promoter.promoterID q))
        (generate_promoter_data num_promoters start_id w1)
        (generate_promoter_data num_promoters start_id w2).
Proof.
  intros Hw. unfold generate_promoter_data.
  eapply (agree_for_each eq); [apply Forall2_same| |constructor|done].
  clear. intros i ? ps qs w1 w2 <- Hps Hw.
  eapply agree_bind; [by apply agree_fake_name|]. intros n1 n2 w1' w2' _ Hw'.
  eapply agree_bind; [by apply agree_fake_phone_number|].
  intros c1 c2 w1'' w2'' _ Hw''.
  apply agree_ret; [|done]. apply Forall2_app; [done|]. by repeat constructor.
Qed.

Lemma agree_sampling_facts area_df promoter_df1 promoter_df2 sampling_type_df
    institution_types toothpaste_brands num_samples start_id w1 w2 :
  Forall2 (λ p q, Promoter.promoterID p = Promoter.promoterID q)
          promoter_df1 promoter_df2 →
  same_seeded w1 w2 →
  agree (Forall2 same_event)
        (generate_sampling_facts area_df promoter_df1 sampling_type_df
           institution_types toothpaste_brands num_samples start_id w1)
        (generate_sampling_facts area_df promoter_df2 sampling_type_df
           institution_types toothpaste_brands num_samples start_id w2).
Proof.
  intros Hps Hw. unfold generate_sampling_facts.
  eapply (agree_for_each eq); [apply Forall2_same| |constructor|done].
  clear -Hps. intros i ? es1 es2 w1 w2 <- Hes Hw.
  eapply agree_bind; [apply agree_sample1; [apply Forall2_same|done]|].
  intros area ? w1a w2a <- Hwa.
  eapply agree_bind; [by apply agree_sample1|].
  intros p q w1b w2b Hpq Hwb.
  eapply agree_bind; [apply agree_choice; [apply Forall2_same|done]|].
  intros sampling_type ? w1c w2c <- Hwc.
  eapply (agree_bind eq).
  { case_decide; [|by apply agree_ret].
    eapply agree_bind; [apply agree_choice; [apply Forall2_same|done]|].
    intros x ? ? ? <- ?. by apply agree_ret. }
  intros institution_type ? w1d w2d <- Hwd.
  eapply agree_bind; [by apply agree_randint|].
  intros target ? w1e w2e <- Hwe.
  eapply (agree_bind eq).
  { case_decide; [|by apply agree_ret].
    eapply agree_bind; [by apply agree_randint|].
    intros x ? ? ? <- ?. by apply agree_ret. }
  intros passengers ? w1f w2f <- Hwf.
  eapply agree_bind; [by apply agree_fake_date_between|].
  intros d1 d2 w1g w2g _ Hwg.
  eapply agree_bind; [apply agree_choice; [apply Forall2_same|done]|].
  intros brand ? w1h w2h <- Hwh.
  apply agree_ret; [|done]. apply Forall2_app; [done|].
  constructor; [|constructor]. unfold same_event. cbn. split_and!; try done. lia.
Qed.

Lemma agree_respondents facts1 facts2 area_df age_ranges toothpaste_brands
    reasons start_id w1 w2 :
  Forall2 same_event facts1 facts2 →
  same_seeded w1 w2 →
  agree (Forall2 same_respondent)
        (generate_respondents facts1 area_df age_ranges toothpaste_brands
           reasons start_id w1)
        (generate_respondents facts2 area_df age_ranges toothpaste_brands
           reasons start_id w2).
Proof.
  intros Hfacts Hw. unfold generate_respondents.
  set (RS := λ acc1 acc2 : list Respondent.t * Z,
               Forall2 same_respondent acc1.1 acc2.1 ∧ acc1.2 = acc2.2).
  eapply (agree_bind RS).
  2: { intros acc1 acc2 ? ? [Hrs _] ?. by apply agree_ret. }
  eapply (agree_for_each same_event RS); [exact Hfacts| |by split|done].
  clear. intros e1 e2 acc1 acc2 w1 w2 He Hacc Hw.
  destruct He as (Hid & Harea & _ & _ & _ & Htarget & _ & Hbrand & Hspan).
  unfold respondent_batch. rewrite Htarget.
  eapply agree_bind; [by apply agree_randint|].
  intros actual ? w1a w2a <- Hwa.
  eapply (agree_for_each eq RS); [apply Forall2_same| |done|done].
  clear -Hid Harea Hbrand Hspan.
  intros i ? [rs1 n1] [rs2 n2] w1 w2 _ [Hrs Hn] Hw. simpl in Hrs, Hn. subst n2.
  unfold respondent_append, respondent_record.
  eapply agree_bind.
  2: { intros r1 r2 ? ? Hr ?. apply agree_ret; [|done].
       split; [|done]. simpl. apply Forall2_app; [done|].
       constructor; [exact Hr|constructor]. }
  eapply agree_bind; [by apply agree_fake_name|]. intros ? ? ? ? _ ?.
  eapply agree_bind; [apply agree_choice; [apply Forall2_same|done]|]. intros ? ? ? ? <- ?.
  eapply agree_bind; [by apply agree_fake_phone_number|]. intros ? ? ? ? _ ?.
  eapply agree_bind; [apply agree_choice; [apply Forall2_same|done]|]. intros ? ? ? ? <- ?.
  eapply agree_bind; [apply agree_sample1; [apply Forall2_same|done]|]. intros ? ? ? ? <- ?.
  eapply agree_bind; [apply agree_choice; [apply Forall2_same|done]|]. intros ? ? ? ? <- ?.
  eapply agree_bind; [apply agree_choice; [apply Forall2_same|done]|]. intros ? ? ? ? <- ?.
  eapply (agree_bind (λ _ _, True)).
  { apply agree_choice; [|done]. apply Forall2_true; [done|].
    unfold date_range. rewrite !length_seqZ. by rewrite Hspan. }
  intros ? ? ? ? _ ?. apply agree_ret; [|done].
  unfold same_respondent. cbn. by rewrite Hid, Harea, Hbrand.
Qed.

Lemma agree_main w1 w2 :
  agree (λ wb1 wb2,
           sheet_Area wb1 = sheet_Area wb2 ∧
           sheet_SamplingType wb1 = sheet_SamplingType wb2 ∧
           Forall2 (λ p q, Promoter.promoterID p = Promoter.promoterID q)
                   (sheet_Promoter wb1) (sheet_Promoter wb2) ∧
           Forall2 same_event (sheet_SamplingFact wb1) (sheet_SamplingFact wb2) ∧
           Forall2 same_respondent (sheet_Respondents wb1)
                   (sheet_Respondents wb2))
        (main w1) (main w2).
Proof.
  unfold main.
  eapply (agree_bind (λ _ _, True)); [by unfold initialize_faker|].
  intros _ _ w1a w2a _ Hwa. cbv zeta.
  eapply agree_bind; [by apply agree_promoter_data|].
  intros ps1 ps2 w1b w2b Hps Hwb.
  eapply agree_bind; [by apply agree_sampling_facts|].
  intros es1 es2 w1c w2c Hes Hwc.
  eapply agree_bind; [by apply agree_respondents|].
  intros rs1 rs2 w1d w2d Hrs Hwd.
  by apply agree_ret.
Qed.

(** X19.  Two runs of [main], whatever state the process and the [Faker]
    object start from, write the same Area and SamplingType sheets, the same
    promoter identifiers, events that differ at most in their dates, and
    equally many respondents, which pairwise differ at most in name, contact
    and submission date: everything drawn from the generators that
    [initialize_faker] seeds is reproduced. *)
Theorem main_seeded_fields_reproducible w1 w2 wb1 w1' wb2 w2' :
  main w1 = Ok (wb1, w1') → main w2 = Ok (wb2, w2') →
  sheet_Area wb1 = sheet_Area wb2 ∧
  sheet_SamplingType wb1 = sheet_SamplingType wb2 ∧
  Promoter.promoterID <$> sheet_Promoter wb1
    = Promoter.promoterID <$> sheet_Promoter wb2 ∧
  Forall2 same_event (sheet_SamplingFact wb1) (sheet_SamplingFact wb2) ∧
  length (sheet_Respondents wb1) = length (sheet_Respondents wb2) ∧
  Forall2 same_respondent (sheet_Respondents wb1) (sheet_Respondents wb2).
Proof.
  intros H1 H2. pose proof (agree_main w1 w2) as Hagree.
  rewrite H1, H2 in Hagree. destruct Hagree as [(Ha & Ht & Hp & He & Hr) _].
  split_and!; try done.
  - clear -Hp. induction Hp as [|p q ps qs Hpq _ IH]; [done|].
    cbn [fmap list_fmap]. by f_equal.
  - by eapply Forall2_length.
Qed.

(** X20.  Two runs of [generate_sampling_facts] on the same tables, from
    states in which the generators behind [random] and NumPy agree, end
    alike: both raise the same exception, or both return, leave those two
    generators in the same state, and produce events that differ at most in
    their dates. *)
Theorem sampling_facts_depend_on_faker_only_in_dates
    area_df promoter_df sampling_type_df institution_types toothpaste_brands
    num_samples start_id w1 w2 :
  same_seeded w1 w2 →
  agree (Forall2 same_event)
        (generate_sampling_facts area_df promoter_df sampling_type_df
           institution_types toothpaste_brands num_samples start_id w1)
        (generate_sampling_facts area_df promoter_df sampling_type_df
           institution_types toothpaste_brands num_samples start_id w2).
Proof.
  intros Hw. apply agree_sampling_facts; [|done].
  clear. induction promoter_df; by constructor.
Qed.

(** X21.  Two runs of [generate_respondents] on the same inputs, from states
    in which the generators behind [random] and NumPy agree, end alike: both
    raise the same exception, or both return equally many respondents, which
    pairwise differ at most in name, contact and submission date. *)
Theorem respondents_depend_on_faker_only_in_names
    facts area_df age_ranges toothpaste_brands reasons start_id w1 w2 :
  same_seeded w1 w2 →
  agree (Forall2 same_respondent)
        (generate_respondents facts area_df age_ranges toothpaste_brands
           reasons start_id w1)
        (generate_respondents facts area_df age_ranges toothpaste_brands
           reasons start_id w2).
Proof.
  intros Hw. apply agree_respondents; [|done].
  clear. induction facts; constructor; [|done]. by repeat split.
Qed.
End Reproducibility.

(** * Concrete instances of the further properties *)

Lemma promoters_run :
  generate_promoter_data 3 1000 Cases.promoters_world
  = Ok (Cases.three_promoters, Cases.promoters_world').
Proof. vm_compute. reflexivity. Defined.

Lemma main_run_b : main Run.process_b = Ok (Cases.workbook_b, Cases.process_b').
Proof. vm_compute. reflexivity. Defined.

Lemma low_target_run :
  generate_respondents [Cases.low_target_event] Demo.areas
    (age_ranges define_lookup_data) Demo.brands (reasons define_lookup_data)
    1000 Run.events_world'
  = Raise ValueError.
Proof. vm_compute. reflexivity. Defined.

Lemma promoter_ids_witness :
  generate_promoter_data 3 1000 Cases.promoters_world
  = Ok (Cases.three_promoters, Cases.promoters_world') ∧
  length Cases.three_promoters = Z.to_nat 3 ∧
  Promoter.promoterID <$> Cases.three_promoters
    = (λ i, "P" +:+ pretty i) <$> seqZ 1000 3 ∧
  NoDup (Promoter.promoterID <$> Cases.three_promoters).
Proof.
  split; [exact promoters_run|].
  exact (promoter_ids_sequential_and_distinct _ _ _ _ _ promoters_run).
Defined.

Lemma sampling_type_keys_witness :
  SamplingTypeDF.index
    (generate_sampling_type_df (sampling_types define_lookup_data)) !! 4%nat
  = Some "ST5" ∧
  SamplingTypeDF.index
    (generate_sampling_type_df (sampling_types define_lookup_data)) !! 1%nat
  = Some "ST2".
Proof.
  destruct (sampling_type_keys (sampling_types define_lookup_data))
    as (_ & _ & _ & Hkeys).
  split.
  - exact (Hkeys 4%nat "Institutional" eq_refl).
  - exact (Hkeys 1%nat "Traffic" eq_refl).
Defined.

Lemma sampling_ids_witness :
  generate_sampling_facts Demo.areas Demo.promoters Demo.types
    Demo.institutions Demo.brands 2 1000 Run.events_world
  = Ok (Run.events, Run.events_world') ∧
  length Run.events = Z.to_nat 2 ∧
  SamplingFact.samplingID <$> Run.events
    = (λ i, "S" +:+ pretty i) <$> seqZ 1000 2 ∧
  NoDup (SamplingFact.samplingID <$> Run.events).
Proof.
  split; [exact events_run|].
  exact (sampling_ids_sequential_and_distinct _ _ _ _ _ _ _ _ _ _ events_run).
Defined.

Lemma sampling_facts_return_witness :
  ∃ facts w',
    generate_sampling_facts Demo.areas Demo.promoters Demo.types
      Demo.institutions Demo.brands 2 1000 Run.events_world
    = Ok (facts, w').
Proof.
  apply (sampling_facts_return_on_nonempty_inputs Demo.areas Demo.promoters
           Demo.types Demo.institutions Demo.brands 2 1000 Run.events_world);
    discriminate.
Defined.

Lemma nothing_to_generate_witness :
  generate_sampling_facts [] [] (generate_sampling_type_df []) [] [] (-3) 1000
    Run.events_world
  = Ok ([], Run.events_world).
Proof.
  apply (sampling_facts_nothing_to_generate [] [] (generate_sampling_type_df [])
           [] [] (-3) 1000 Run.events_world).
  lia.
Defined.

Lemma empty_table_witness :
  generate_sampling_facts Demo.areas [] Demo.types Demo.institutions
    Demo.brands 2 1000 Run.events_world
  = Raise ValueError.
Proof.
  apply (sampling_facts_empty_table_raises_ValueError Demo.areas []
           Demo.types Demo.institutions Demo.brands 2 1000 Run.events_world).
  - lia.
  - by right.
Defined.

Lemma empty_list_witness :
  generate_sampling_facts Demo.areas Demo.promoters Demo.types
    Demo.institutions [] 2 1000 Run.events_world
  = Raise IndexError.
Proof.
  apply (sampling_facts_empty_list_raises_IndexError Demo.areas Demo.promoters
           Demo.types Demo.institutions [] 2 1000 Run.events_world).
  - lia.
  - discriminate.
  - discriminate.
  - by right.
Defined.

Lemma sampling_fields_witness :
  generate_sampling_facts Demo.areas Demo.promoters Demo.types
    Demo.institutions Demo.brands 2 1000 Run.events_world
  = Ok (Run.events, Run.events_world') ∧
  Forall (λ e,
            SamplingFact.areaID e ∈ Area.areaID <$> Demo.areas ∧
            SamplingFact.promoterID e
              ∈ Promoter.promoterID <$> Demo.promoters ∧
            SamplingFact.samplingType e ∈ SamplingTypeDF.index Demo.types ∧
            SamplingFact.toothpasteBrand e ∈ Demo.brands ∧
            ∀ x, SamplingFact.institutionType e = Some x →
                 x ∈ Demo.institutions) Run.events.
Proof.
  split; [exact events_run|].
  exact (sampling_fields_come_from_inputs _ _ _ _ _ _ _ _ _ _ events_run).
Defined.

Lemma respondent_ids_witness :
  generate_respondents Run.events Demo.areas (age_ranges define_lookup_data)
    Demo.brands (reasons define_lookup_data) 1000 Run.events_world'
  = Ok (Run.respondents, Run.respondents_world') ∧
  Respondent.respondentID <$> Run.respondents
    = (λ i, "R" +:+ pretty i)
        <$> seqZ 1000 (Z.of_nat (length Run.respondents)) ∧
  NoDup (Respondent.respondentID <$> Run.respondents).
Proof.
  split; [exact respondents_run|].
  exact (respondent_ids_sequential_and_distinct _ _ _ _ _ _ _ _ _
           respondents_run).
Defined.

Lemma respondent_fields_witness :
  generate_respondents Run.events Demo.areas (age_ranges define_lookup_data)
    Demo.brands (reasons define_lookup_data) 1000 Run.events_world'
  = Ok (Run.respondents, Run.respondents_world') ∧
  Forall (λ r, ∃ e,
            e ∈ Run.events ∧
            Respondent.samplingID r = SamplingFact.samplingID e ∧
            Respondent.toothpasteBrand r = SamplingFact.toothpasteBrand e ∧
            Respondent.areaID r = SamplingFact.areaID e ∧
            Respondent.ageRange r ∈ age_ranges define_lookup_data ∧
            Respondent.perferredBrand r ∈ Demo.brands ∧
            Respondent.residenceArea r ∈ Area.AreaName <$> Demo.areas ∧
            Respondent.reason r ∈ reasons define_lookup_data ∧
            (Respondent.optInOtherProducts r = "Yes" ∨
             Respondent.optInOtherProducts r = "No")) Run.respondents.
Proof.
  split; [exact respondents_run|].
  exact (respondent_fields_come_from_inputs _ _ _ _ _ _ _ _ _ respondents_run).
Defined.

Lemma respondent_count_witness :
  generate_respondents Run.events Demo.areas (age_ranges define_lookup_data)
    Demo.brands (reasons define_lookup_data) 1000 Run.events_world'
  = Ok (Run.respondents, Run.respondents_world') ∧
  100 * Z.of_nat (length Run.events) ≤ Z.of_nat (length Run.respondents)
    ≤ total_target Run.events.
Proof.
  split; [exact respondents_run|].
  exact (respondent_count_bounds _ _ _ _ _ _ _ _ _ respondents_run).
Defined.

Lemma events_ids_distinct : NoDup (SamplingFact.samplingID <$> Run.events).
Proof.
  apply NoDup_cons. split; [|apply NoDup_singleton].
  intros Hin. apply list_elem_of_singleton in Hin. discriminate Hin.
Defined.

Lemma respondents_grouped_witness :
  NoDup (SamplingFact.samplingID <$> Run.events) ∧
  generate_respondents Run.events Demo.areas (age_ranges define_lookup_data)
    Demo.brands (reasons define_lookup_data) 1000 Run.events_world'
  = Ok (Run.respondents, Run.respondents_world') ∧
  Forall (λ e,
            let group :=
              filter (λ r, Respondent.samplingID r = SamplingFact.samplingID e)
                     Run.respondents in
            100 ≤ Z.of_nat (length group) ≤ SamplingFact.target e ∧
            Forall (λ r, SamplingFact.startDate e
                           ≤ Respondent.dateOfSubmistion r
                           ≤ SamplingFact.endDate e) group) Run.events.
Proof.
  split; [exact events_ids_distinct|]. split; [exact respondents_run|].
  exact (respondents_grouped_by_event _ _ _ _ _ _ _ _ _ events_ids_distinct
           respondents_run).
Defined.

Lemma only_failure_witness :
  generate_respondents [Cases.low_target_event] Demo.areas
    (age_ranges define_lookup_data) Demo.brands (reasons define_lookup_data)
    1000 Run.events_world'
  = Raise ValueError ∧
  ValueError = ValueError ∧
  Exists (λ ev, SamplingFact.target ev < 100) [Cases.low_target_event].
Proof.
  split; [exact low_target_run|].
  apply (generate_respondents_only_failure Demo.areas
           (age_ranges define_lookup_data) Demo.brands
           (reasons define_lookup_data) [Cases.low_target_event] 1000
           Run.events_world' ValueError).
  - apply Forall_singleton. simpl. lia.
  - discriminate.
  - discriminate.
  - discriminate.
  - discriminate.
  - exact low_target_run.
Defined.

Lemma low_target_witness :
  generate_respondents (Cases.low_target_event :: Run.events) [] [] [] [] 1000
    Run.events_world'
  = Raise ValueError.
Proof.
  apply (generate_respondents_low_target_raises [] [] [] []
           Cases.low_target_event Run.events 1000 Run.events_world').
  simpl. lia.
Defined.

Lemma main_table_sizes_witness :
  main Run.process_a = Ok (Run.workbook_a, Run.process_a') ∧
  length (sheet_Area Run.workbook_a) = 20%nat ∧
  Promoter.promoterID <$> sheet_Promoter Run.workbook_a
    = ["P1000"; "P1001"; "P1002"; "P1003"; "P1004"] ∧
  SamplingTypeDF.index (sheet_SamplingType Run.workbook_a)
    = ["ST1"; "ST2"; "ST3"; "ST4"; "ST5"] ∧
  SamplingFact.samplingID <$> sheet_SamplingFact Run.workbook_a
    = ["S1000"; "S1001"; "S1002"; "S1003"; "S1004"; "S1005"] ∧
  600 ≤ Z.of_nat (length (sheet_Respondents Run.workbook_a)) ≤ 1200 ∧
  Respondent.respondentID <$> sheet_Respondents Run.workbook_a
    = (λ i, "R" +:+ pretty i)
        <$> seqZ 1000 (Z.of_nat (length (sheet_Respondents Run.workbook_a))).
Proof.
  split; [exact main_run|].
  exact (main_table_sizes _ _ _ main_run).
Defined.

Lemma main_reproducible_witness :
  main Run.process_a = Ok (Run.workbook_a, Run.process_a') ∧
  main Run.process_b = Ok (Cases.workbook_b, Cases.process_b') ∧
  sheet_Area Run.workbook_a = sheet_Area Cases.workbook_b ∧
  sheet_SamplingType Run.workbook_a = sheet_SamplingType Cases.workbook_b ∧
  Promoter.promoterID <$> sheet_Promoter Run.workbook_a
    = Promoter.promoterID <$> sheet_Promoter Cases.workbook_b ∧
  Forall2 same_event (sheet_SamplingFact Run.workbook_a)
          (sheet_SamplingFact Cases.workbook_b) ∧
  length (sheet_Respondents Run.workbook_a)
    = length (sheet_Respondents Cases.workbook_b) ∧
  Forall2 same_respondent (sheet_Respondents Run.workbook_a)
          (sheet_Respondents Cases.workbook_b).
Proof.
  split; [exact main_run|]. split; [exact main_run_b|].
  exact (main_seeded_fields_reproducible _ _ _ _ _ _ main_run main_run_b).
Defined.

Lemma sampling_facts_two_runs_witness :
  same_seeded Run.events_world Cases.events_world_b ∧
  agree (Forall2 same_event)
        (generate_sampling_facts Demo.areas Demo.promoters Demo.types
           Demo.institutions Demo.brands 2 1000 Run.events_world)
        (generate_sampling_facts Demo.areas Demo.promoters Demo.types
           Demo.institutions Demo.brands 2 1000 Cases.events_world_b).
Proof.
  assert (same_seeded Run.events_world Cases.events_world_b) as Hw
    by (split; reflexivity).
  split; [exact Hw|].
  exact (sampling_facts_depend_on_faker_only_in_dates Demo.areas
           Demo.promoters Demo.types Demo.institutions Demo.brands 2 1000
           _ _ Hw).
Defined.

Lemma respondents_two_runs_witness :
  same_seeded Run.events_world' Cases.respondents_world_b ∧
  agree (Forall2 same_respondent)
        (generate_respondents Run.events Demo.areas
           (age_ranges define_lookup_data) Demo.brands
           (reasons define_lookup_data) 1000 Run.events_world')
        (generate_respondents Run.events Demo.areas
           (age_ranges define_lookup_data) Demo.brands
           (reasons define_lookup_data) 1000 Cases.respondents_world_b).
Proof.
  assert (same_seeded Run.events_world' Cases.respondents_world_b) as Hw
    by (split; reflexivity).
  split; [exact Hw|].
  exact (respondents_depend_on_faker_only_in_names Run.events Demo.areas
           (age_ranges define_lookup_data) Demo.brands
           (reasons define_lookup_data) 1000 _ _ Hw).
Defined.

(** C3: the claim as stated fails on a table of two events with targets 150
    and 50.  The first row has a target of at least 100, yet the run raises
    [ValueError] at the batch-size draw of the second row and returns no
    table, hence no batch for the first row either. *)
Lemma batch_lost_beside_low_target :
  Cases.ample_target_event
    ∈ [Cases.ample_target_event; Cases.low_target_event] ∧
  100 ≤ SamplingFact.target Cases.ample_target_event ∧
  generate_respondents [Cases.ample_target_event; Cases.low_target_event]
    Demo.areas (age_ranges define_lookup_data) Demo.brands
    (reasons define_lookup_data) 1000 Run.events_world'
  = Raise ValueError ∧
  ¬ ∃ respondents w' batch,
      generate_respondents [Cases.ample_target_event; Cases.low_target_event]
        Demo.areas (age_ranges define_lookup_data) Demo.brands
        (reasons define_lookup_data) 1000 Run.events_world'
      = Ok (respondents, w') ∧
      batch `sublist_of` respondents ∧
      100 ≤ Z.of_nat (length batch)
        ≤ SamplingFact.target Cases.ample_target_event.
Proof.
  assert (generate_respondents
            [Cases.ample_target_event; Cases.low_target_event]
            Demo.areas (age_ranges define_lookup_data) Demo.brands
            (reasons define_lookup_data) 1000 Run.events_world'
          = Raise ValueError) as Hrun by (vm_compute; reflexivity).
  split_and!.
  - left.
  - simpl. lia.
  - exact Hrun.
  - intros (respondents & w' & batch & Hok & _). rewrite Hrun in Hok.
    discriminate Hok.
Qed.
